(** * SprintSync front end: a model of [src/App.js] and its state handling

    The React component [App] keeps six pieces of state and a handful of
    event handlers that talk to a REST back end through axios.  This file
    embeds the handlers as programs of a small state-and-exception monad
    over an explicit world (component state, [localStorage], the log of
    everything the handlers did to the outside), and proves the properties
    the specification states about them.

    Conventions of the model:
    - a JavaScript value is a term of [value]; objects are finite maps from
      property names to values (the program never observes property order);
      strings are sequences of code units;
    - numbers are the integer-valued ones (ids, minute estimates): [VNum]
      carries a [Z];
    - an awaited axios call either resolves with the response body or
      rejects; which of the two happens is decided by the environment
      [env], a function of the request and of everything logged so far;
    - a handler is run to quiescence: the requests it starts are answered
      before the next handler runs. *)

From stdpp Require Import gmap strings list fin_maps pretty.

#[local] Open Scope string_scope.
#[local] Set Warnings "-register-all".

(** ** JavaScript values *)

Inductive value : Type :=
  | VUndefined
  | VNull
  | VBool (b : bool)
  | VNum (n : Z)
  | VStr (s : string)
  | VArr (l : list value)
  | VObj (m : gmap string value).

(** An object literal [{k1: v1, k2: v2}]. *)
Definition obj (fields : list (string * value)) : value :=
  VObj (list_to_map fields).

(** What a [throw] carries.  [TypeError] is raised by the runtime (property
    access on [null]/[undefined], calling something that is not a
    function); [AxiosError e] is the rejection of an axios promise. *)
Inductive exn : Type :=
  | TypeError
  | AxiosError (e : value).

(** Evaluation of an expression that may throw. *)
Inductive result (A : Type) : Type :=
  | Ok (a : A)
  | Throw (e : exn).
Arguments Ok {A} a.
Arguments Throw {A} e.

#[export] Instance result_ret : MRet result := λ A a, Ok a.
#[export] Instance result_bind : MBind result := λ A B f r,
  match r with
  | Ok a => f a
  | Throw e => Throw e
  end.

Module Js.

(** ToBoolean. *)
Definition truthy (v : value) : bool :=
  match v with
  | VUndefined | VNull => false
  | VBool b => b
  | VNum n => negb (n =? 0)%Z
  | VStr s => negb (String.eqb s "")
  | VArr _ | VObj _ => true
  end.

(** [a || b]. *)
Definition or (a b : value) : value := if truthy a then a else b.

(** [a === b].  Primitives are compared by type and value.  Arrays and
    objects are compared by reference; values here carry no identity and
    two operands of reference type are taken to be distinct references.
    The answer is therefore that of JavaScript whenever one operand at
    least is a primitive; where an id is compared with itself (the select
    of a task item passes [task.id]), the statements below ask for a
    primitive id. *)
Definition strict_eq (a b : value) : bool :=
  match a, b with
  | VUndefined, VUndefined => true
  | VNull, VNull => true
  | VBool x, VBool y => bool_decide (x = y)
  | VNum x, VNum y => bool_decide (x = y)
  | VStr x, VStr y => bool_decide (x = y)
  | _, _ => false
  end.

Definition nullish (v : value) : bool :=
  match v with
  | VUndefined | VNull => true
  | _ => false
  end.

(** [v.k], for the property names [App.js] reads ([results], [id],
    [status], [title], [description], [total_minutes], [plan],
    [estimated_hours], [username], [access], [refresh], [value], [label],
    [color], [length]): none of them but [length] is an index or a
    built-in of arrays, strings, numbers or booleans. *)
Definition get (v : value) (k : string) : result value :=
  match v with
  | VUndefined | VNull => Throw TypeError
  | VObj m => Ok (default VUndefined (m !! k))
  | VArr l => Ok (if String.eqb k "length" then VNum (Z.of_nat (length l)) else VUndefined)
  | VStr s => Ok (if String.eqb k "length" then VNum (Z.of_nat (String.length s)) else VUndefined)
  | VBool _ | VNum _ => Ok VUndefined
  end.

(** [v?.k]. *)
Definition get_opt (v : value) (k : string) : value :=
  match get v k with
  | Ok x => x
  | Throw _ => VUndefined
  end.

Definition index_key (i : nat) : string := pretty i.

Fixpoint chars (s : string) : list value :=
  match s with
  | EmptyString => []
  | String c s' => VStr (String c EmptyString) :: chars s'
  end.

Definition indexed (l : list value) : gmap string value :=
  list_to_map (imap (λ i x, (index_key i, x)) l).

(** The own enumerable properties copied by an object spread
    [{...v}]: the fields of an object, the elements of an array and the
    characters of a string under their indices, nothing for the other
    primitives and for [null]/[undefined]. *)
Definition own_props (v : value) : gmap string value :=
  match v with
  | VObj m => m
  | VArr l => indexed l
  | VStr s => indexed (chars s)
  | _ => ∅
  end.

(** [{...v, k: x}]. *)
Definition spread_with (v : value) (k : string) (x : value) : value :=
  VObj (<[k := x]> (own_props v)).

(** The callback of a [map] applied to the elements from left to right;
    the first throw aborts the traversal. *)
Fixpoint map_elems {B : Type} (f : value → result B) (l : list value)
  : result (list B) :=
  match l with
  | [] => Ok []
  | x :: l' => y ← f x; ys ← map_elems f l'; mret (y :: ys)
  end.

(** The receiver of [v.map(...)]: only arrays have a [map]; on anything
    else the call throws ([null.map], or "v.map is not a function"). *)
Definition elements (v : value) : result (list value) :=
  match v with
  | VArr l => Ok l
  | _ => Throw TypeError
  end.

(** [v.map(f)]. *)
Definition array_map (f : value → result value) (v : value) : result value :=
  l ← elements v; l' ← map_elems f l; mret (VArr l').

(** [l[i]] on an array literal. *)
Definition at_index (l : list value) (i : nat) : value :=
  default VUndefined (l !! i).

(** [l.find(p)] on an array literal: the first element satisfying [p],
    [undefined] when there is none. *)
Definition array_find (p : value → result bool) (l : list value) : result value :=
  foldr (λ x rest, b ← p x; if (b : bool) then mret x else rest)
        (Ok VUndefined) l.

End Js.

(** ** The outside world *)

Inductive method : Type := GET | POST | PUT | PATCH | DELETE.

(** A URL as the template literal that builds it: literal pieces and the
    interpolated values, e.g. [`/tasks/${taskId}/status/`]. *)
Inductive url_part : Type :=
  | Lit (s : string)
  | Interp (v : value).

Record request : Type := Request {
  req_method : method;
  req_url : list url_part;
  req_body : value   (* [VUndefined] when the call passes no body *)
}.

(** Everything a handler does that is visible outside the component, in
    the order it happens. *)
Inductive event : Type :=
  | EHttp (r : request)
  | EConfirm (msg : string)
  | EAlert (msg : string)
  | EConsoleError (msg : string) (e : exn).

(** How an awaited axios promise settles: resolved with [response.data],
    or rejected. *)
Inductive outcome : Type :=
  | Resolved (data : value)
  | Rejected (e : value).

(** The environment answers each request and each confirmation prompt; the
    answer may depend on the whole interaction so far. *)
Record env : Type := Env {
  respond : list event → request → outcome;
  confirm_answer : list event → string → bool
}.

(** The state of [App] (the six [useState] cells). *)
Record AppState : Type := AppSt {
  tasks : value;
  showModal : bool;
  editingTask : value;
  aiSuggestion : value;
  loading : bool;
  user : value
}.

(** [useState] initial values, [App.js] lines 17-22. *)
Definition initial_state : AppState :=
  {| tasks := VArr []; showModal := false; editingTask := VNull;
     aiSuggestion := VNull; loading := false; user := VNull |}.

(** [localStorage] holds strings under string keys. *)
Record world : Type := World {
  app : AppState;
  local_storage : gmap string string;
  trace : list event
}.

(** ** Programs

    A handler is a function of the environment and the world that returns
    the world it leaves behind together with its completion: normal, or a
    throw that nothing caught.  State written before a throw stays
    written. *)

Definition prog (A : Type) : Type := env → world → result A * world.

#[export] Instance prog_ret : MRet prog := λ A a _ w, (Ok a, w).
#[export] Instance prog_bind : MBind prog := λ A B f c E w,
  match c E w with
  | (Ok a, w') => f a E w'
  | (Throw e, w') => (Throw e, w')
  end.

Definition log (e : event) (w : world) : world :=
  {| app := app w; local_storage := local_storage w; trace := trace w ++ [e] |}.

Definition with_app (f : AppState → AppState) (w : world) : world :=
  {| app := f (app w); local_storage := local_storage w; trace := trace w |}.

Definition with_storage (f : gmap string string → gmap string string)
    (w : world) : world :=
  {| app := app w; local_storage := f (local_storage w); trace := trace w |}.

(** An expression evaluated inside a handler. *)
Definition lift {A : Type} (r : result A) : prog A := λ _ w, (r, w).

(** [try { c } catch (error) { h error }]. *)
Definition try_catch {A : Type} (c : prog A) (h : exn → prog A) : prog A :=
  λ E w,
    match c E w with
    | (Ok a, w') => (Ok a, w')
    | (Throw e, w') => h e E w'
    end.

(** [try { c } finally { f }]: [f] runs however [c] completes, and the
    completion of [c] stands unless [f] itself throws. *)
Definition try_finally {A : Type} (c : prog A) (f : prog unit) : prog A :=
  λ E w,
    let '(r, w') := c E w in
    match f E w' with
    | (Ok _, w'') => (r, w'')
    | (Throw e, w'') => (Throw e, w'')
    end.

(** A call of an async function that is not awaited: the caller goes on
    and never sees a rejection.  Run to quiescence, the callee's effects
    are those of the call. *)
Definition detached (c : prog unit) : prog unit :=
  λ E w, let '(_, w') := c E w in (Ok (), w').

(** [await axios.<method>(url, body)]: the request goes out, and the
    environment settles it. *)
Definition await_axios (m : method) (url : list url_part) (body : value)
    : prog value :=
  λ E w,
    let r := Request m url body in
    match respond E (trace w) r with
    | Resolved d => (Ok d, log (EHttp r) w)
    | Rejected e => (Throw (AxiosError e), log (EHttp r) w)
    end.

Definition window_confirm (msg : string) : prog bool :=
  λ E w, (Ok (confirm_answer E (trace w) msg), log (EConfirm msg) w).

Definition console_error (msg : string) (e : exn) : prog unit :=
  λ _ w, (Ok (), log (EConsoleError msg e) w).

Definition localStorage_removeItem (k : string) : prog unit :=
  λ _ w, (Ok (), with_storage (delete k) w).

(** The [useState] setters. *)
Definition set_state (f : AppState → AppState) : prog unit :=
  λ _ w, (Ok (), with_app f w).

Definition setTasks (v : value) : prog unit :=
  set_state (λ s, {| tasks := v; showModal := showModal s;
                     editingTask := editingTask s; aiSuggestion := aiSuggestion s;
                     loading := loading s; user := user s |}).

Definition setShowModal (b : bool) : prog unit :=
  set_state (λ s, {| tasks := tasks s; showModal := b;
                     editingTask := editingTask s; aiSuggestion := aiSuggestion s;
                     loading := loading s; user := user s |}).

Definition setEditingTask (v : value) : prog unit :=
  set_state (λ s, {| tasks := tasks s; showModal := showModal s;
                     editingTask := v; aiSuggestion := aiSuggestion s;
                     loading := loading s; user := user s |}).

Definition setAiSuggestion (v : value) : prog unit :=
  set_state (λ s, {| tasks := tasks s; showModal := showModal s;
                     editingTask := editingTask s; aiSuggestion := v;
                     loading := loading s; user := user s |}).

Definition setLoading (b : bool) : prog unit :=
  set_state (λ s, {| tasks := tasks s; showModal := showModal s;
                     editingTask := editingTask s; aiSuggestion := aiSuggestion s;
                     loading := b; user := user s |}).

Definition setUser (v : value) : prog unit :=
  set_state (λ s, {| tasks := tasks s; showModal := showModal s;
                     editingTask := editingTask s; aiSuggestion := aiSuggestion s;
                     loading := loading s; user := v |}).

(** ** The handlers of [App]

    A handler is a closure created by a render: the state variables it
    reads ([tasks], [editingTask]) are those of that render, the argument
    [snap], whatever has been set since. *)

(** [fetchTasks], lines 34-41. *)
Definition fetchTasks : prog unit :=
  try_catch
    (data ← await_axios GET [Lit "/tasks/tasks/"] VUndefined;
     results ← lift (Js.get data "results");
     setTasks (Js.or results data))
    (λ error, console_error "Error fetching tasks:" error).

(** [handleLogout], lines 66-71. *)
Definition handleLogout : prog unit :=
  localStorage_removeItem "accessToken";;
  localStorage_removeItem "refreshToken";;
  setUser VNull;;
  setTasks (VArr []).

(** [handleStatusChange], lines 73-83. *)
Definition handleStatusChange (snap : AppState) (taskId newStatus : value)
    : prog unit :=
  try_catch
    (await_axios PATCH [Lit "/tasks/"; Interp taskId; Lit "/status/"]
                 (obj [("status", newStatus)]);;
     tasks' ← lift (Js.array_map
                      (λ task,
                         id ← Js.get task "id";
                         mret (if Js.strict_eq id taskId
                               then Js.spread_with task "status" newStatus
                               else task))
                      (tasks snap));
     setTasks tasks')
    (λ error, console_error "Error updating task status:" error).

(** [handleSaveTask], lines 85-98. *)
Definition handleSaveTask (snap : AppState) (taskData : value) : prog unit :=
  try_catch
    ((if Js.truthy (editingTask snap)
      then
        id ← lift (Js.get (editingTask snap) "id");
        await_axios PUT [Lit "/tasks/tasks/"; Interp id; Lit "/"] taskData
      else
        await_axios POST [Lit "/tasks/tasks/"] taskData);;
     setShowModal false;;
     setEditingTask VNull;;
     detached fetchTasks)
    (λ error, console_error "Error saving task:" error).

(** [handleDeleteTask], lines 100-109. *)
Definition handleDeleteTask (taskId : value) : prog unit :=
  ok ← window_confirm "Are you sure you want to delete this task?";
  if (ok : bool)
  then
    try_catch
      (await_axios DELETE [Lit "/tasks/tasks/"; Interp taskId; Lit "/"] VUndefined;;
       detached fetchTasks)
      (λ error, console_error "Error deleting task:" error)
  else mret ().

(** The object stored when the plan request fails, lines 118-121. *)
Definition fallback_suggestion : value :=
  obj [("plan", VStr "Could not generate plan. Please try again later.");
       ("estimated_hours", VNum 0)].

(** [handleAiSuggestion], lines 111-125. *)
Definition handleAiSuggestion : prog unit :=
  setLoading true;;
  try_finally
    (try_catch
       (data ← await_axios POST [Lit "/tasks/ai/daily_plan/"] VUndefined;
        setAiSuggestion data)
       (λ error,
          console_error "Error fetching AI suggestion:" error;;
          setAiSuggestion fallback_suggestion))
    (setLoading false).

(** The inline handlers of the JSX. *)

(** "+ New Task", line 144. *)
Definition onNewTask : prog unit := setShowModal true.

(** The close button of the suggestion panel, line 168. *)
Definition dismiss : prog unit := setAiSuggestion VNull.

(** [onEdit] of a task item, lines 187-190. *)
Definition onEdit (task : value) : prog unit :=
  setEditingTask task;; setShowModal true.

(** [onClose] of the modal, lines 202-205. *)
Definition onClose : prog unit :=
  setShowModal false;; setEditingTask VNull.

(** Running a handler of the current render. *)
Definition run (h : prog unit) (E : env) (w : world) : world := (h E w).2.

Definition completion (h : prog unit) (E : env) (w : world) : result unit :=
  (h E w).1.

(** ** Rendering *)

(** [statusOptions], lines 215-219. *)
Definition statusOptions : list value :=
  [ obj [("value", VStr "TO_DO"); ("label", VStr "To Do"); ("color", VStr "#ffbe0b")];
    obj [("value", VStr "IN_PROGRESS"); ("label", VStr "In Progress"); ("color", VStr "#3a86ff")];
    obj [("value", VStr "DONE"); ("label", VStr "Done"); ("color", VStr "#06d6a0")] ].

(** [getStatusInfo], lines 221-223. *)
Definition getStatusInfo (statusValue : value) : result value :=
  found ← Js.array_find
             (λ option, v ← Js.get option "value";
                        mret (Js.strict_eq v statusValue))
             statusOptions;
  mret (Js.or found (Js.at_index statusOptions 0)).

(** What [TaskItem] puts on the screen for one task. *)
Record TaskItemView : Type := TaskItemV {
  item_title : value;
  item_description : value;
  item_minutes : value;
  badge_color : value;
  badge_label : value;
  select_value : value;
  select_options : list (value * value)   (* value, label *)
}.

(** [TaskItem], lines 214-268. *)
Definition TaskItem (task : value) : result TaskItemView :=
  status ← Js.get task "status";
  currentStatus ← getStatusInfo status;
  title ← Js.get task "title";
  description ← Js.get task "description";
  minutes ← Js.get task "total_minutes";
  color ← Js.get currentStatus "color";
  label ← Js.get currentStatus "label";
  options ← Js.map_elems
               (λ option, v ← Js.get option "value";
                          l ← Js.get option "label";
                          mret (v, l))
               statusOptions;
  mret {| item_title := title; item_description := description;
          item_minutes := minutes; badge_color := color; badge_label := label;
          select_value := status; select_options := options |}.

Inductive TasksView : Type :=
  | NoTasks                                   (* "No tasks yet. ..." *)
  | TasksList (items : list (value * TaskItemView)).   (* key, item *)

Record MainView : Type := MainV {
  header_username : value;
  plan_button_disabled : bool;
  plan_button_label : string;
  suggestion_panel : option (value * value);  (* plan, estimated hours *)
  tasks_view : TasksView;
  modal_task : option value                   (* the [task] prop of the modal *)
}.

Inductive View : Type :=
  | LoginView
  | AppView (v : MainView).

(** The body of [App] after the hooks, lines 127-210.  A throw while
    rendering is the render failing.  This is what the component
    functions return; whether React can put it on the screen is
    [display], further down. *)
Definition render (st : AppState) : result View :=
  if negb (Js.truthy (user st)) then mret LoginView
  else
    username ← Js.get (user st) "username";
    panel ← (if Js.truthy (aiSuggestion st)
             then plan ← Js.get (aiSuggestion st) "plan";
                  hours ← Js.get (aiSuggestion st) "estimated_hours";
                  mret (Some (plan, hours))
             else mret None);
    len ← Js.get (tasks st) "length";
    list ← (if Js.strict_eq len (VNum 0) then mret NoTasks
            else
              l ← Js.elements (tasks st);
              items ← Js.map_elems
                        (λ task, key ← Js.get task "id";
                                 item ← TaskItem task;
                                 mret (key, item))
                        l;
              mret (TasksList items));
    mret (AppView
            {| header_username := username;
               plan_button_disabled := loading st;
               plan_button_label :=
                 if loading st then "Generating..." else "Get Daily Plan";
               suggestion_panel := panel;
               tasks_view := list;
               modal_task := if showModal st then Some (editingTask st) else None |}).

(** ** The task form *)

(** The four [useState] cells of [TaskModal], lines 272-275. *)
Record ModalState : Type := ModalSt {
  title : value;
  description : value;
  status : value;
  totalMinutes : value
}.

(** Their initial values, from the [task] prop. *)
Definition TaskModal_init (task : value) : ModalState :=
  {| title := Js.or (Js.get_opt task "title") (VStr "");
     description := Js.or (Js.get_opt task "description") (VStr "");
     status := Js.or (Js.get_opt task "status") (VStr "TO_DO");
     totalMinutes := Js.or (Js.get_opt task "total_minutes") (VNum 0) |}.

(** The draft built by [handleSubmit], lines 279-284.  [parseInt] is the
    built-in; the draft carries whatever it returns. *)
Definition draft (parseInt : value → value) (m : ModalState) : value :=
  obj [("title", title m); ("description", description m);
       ("status", status m); ("total_minutes", parseInt (totalMinutes m))].

(** [handleSubmit] of [TaskModal], lines 277-285, with [onSave] bound to
    [handleSaveTask] as [App] passes it. *)
Definition handleSubmit (parseInt : value → value) (snap : AppState)
    (m : ModalState) : prog unit :=
  detached (handleSaveTask snap (draft parseInt m)).

(** The screen: the world, and the state of the [TaskModal] instance while
    one is mounted. *)
Record screen : Type := Screen {
  scr_world : world;
  scr_modal : option ModalState
}.

(** What React does with the modal after a state change: the instance
    lives as long as the render contains a [TaskModal], keeping its state;
    a modal that appears is mounted with fresh state; one that is no longer
    rendered is unmounted and its state is gone. *)
Definition commit_modal (st : AppState) (m : option ModalState)
    : option ModalState :=
  match render st with
  | Ok (AppView v) =>
      match modal_task v with
      | Some task => Some (default (TaskModal_init task) m)
      | None => None
      end
  | _ => None
  end.

(** Run a handler of [App] from the current screen, then re-render. *)
Definition dispatch (h : AppState → prog unit) (E : env) (s : screen) : screen :=
  let w' := run (h (app (scr_world s))) E (scr_world s) in
  {| scr_world := w'; scr_modal := commit_modal (app w') (scr_modal s) |}.

(** Submitting the form: possible only while the modal is mounted. *)
Definition submit (parseInt : value → value) (E : env) (s : screen) : screen :=
  match scr_modal s with
  | Some m => dispatch (λ snap, handleSubmit parseInt snap m) E s
  | None => s
  end.

(** ** Vocabulary of the specification *)

(** The list request of [fetchTasks] (interface table: GET /tasks/tasks/). *)
Definition list_request : request := Request GET [Lit "/tasks/tasks/"] VUndefined.

(** The two shapes of a list response the back end may use: a bare
    sequence of tasks, or a paginated wrapper with the tasks under
    [results] next to other fields. *)
Inductive list_response : Type :=
  | BareList (ts : list value)
  | Paginated (ts : list value) (others : gmap string value).

Definition collection_of (r : list_response) : list value :=
  match r with
  | BareList ts => ts
  | Paginated ts _ => ts
  end.

Definition body_of (r : list_response) : value :=
  match r with
  | BareList ts => VArr ts
  | Paginated ts others => VObj (<["results" := VArr ts]> others)
  end.

(** A task record: an object. *)
Definition is_record (v : value) : bool :=
  match v with
  | VObj _ => true
  | _ => false
  end.

(** The record's [id] is the one asked for ([task.id === taskId]). *)
Definition has_id (taskId : value) (t : value) : bool :=
  match Js.get t "id" with
  | Ok v => Js.strict_eq v taskId
  | Throw _ => false
  end.

(** The request of [changeStatus] (interface table: PATCH
    /tasks/{id}/status/ with body [{status}]). *)
Definition status_request (taskId newStatus : value) : request :=
  Request PATCH [Lit "/tasks/"; Interp taskId; Lit "/status/"]
          (obj [("status", newStatus)]).

(** What [changeStatus] makes of one record of the collection. *)
Definition patched (taskId newStatus : value) (t : value) : value :=
  if has_id taskId t then Js.spread_with t "status" newStatus else t.

(** The request of [create] and [update] (POST /tasks/tasks/, PUT
    /tasks/tasks/{id}/), chosen by whether a task is being edited. *)
Definition save_request (st : AppState) (taskData : value) : request :=
  if Js.truthy (editingTask st)
  then Request PUT [Lit "/tasks/tasks/";
                    Interp (Js.get_opt (editingTask st) "id"); Lit "/"] taskData
  else Request POST [Lit "/tasks/tasks/"] taskData.

(** The request of [delete] (DELETE /tasks/tasks/{id}/) and the prompt
    that guards it. *)
Definition delete_request (taskId : value) : request :=
  Request DELETE [Lit "/tasks/tasks/"; Interp taskId; Lit "/"] VUndefined.

Definition delete_prompt : string := "Are you sure you want to delete this task?".

(** The request of the AI plan (POST /tasks/ai/daily_plan/). *)
Definition plan_request : request :=
  Request POST [Lit "/tasks/ai/daily_plan/"] VUndefined.

(** The mutating operations of the task list that end in a refresh. *)
Inductive mutation : Type :=
  | Save (taskData : value)      (* create, or update when a task is edited *)
  | Delete (taskId : value).

Definition perform (snap : AppState) (op : mutation) : prog unit :=
  match op with
  | Save taskData => handleSaveTask snap taskData
  | Delete taskId => handleDeleteTask taskId
  end.

Definition write_request (st : AppState) (op : mutation) : request :=
  match op with
  | Save taskData => save_request st taskData
  | Delete taskId => delete_request taskId
  end.

(** What is logged before the write request goes out. *)
Definition prelude (op : mutation) : list event :=
  match op with
  | Save _ => []
  | Delete _ => [EConfirm delete_prompt]
  end.

(** The user lets the operation go ahead: nothing to accept for a save, the
    prompt accepted for a delete. *)
Definition goes_ahead (E : env) (w : world) (op : mutation) : bool :=
  match op with
  | Save _ => true
  | Delete _ => confirm_answer E (trace w) delete_prompt
  end.

(** The state after [setShowModal(false); setEditingTask(null)]. *)
Definition closed_modal (s : AppState) : AppState :=
  {| tasks := tasks s; showModal := false; editingTask := VNull;
     aiSuggestion := aiSuggestion s; loading := loading s; user := user s |}.

(** The mounted form agrees with what the render shows. *)
Definition consistent (s : screen) : Prop :=
  scr_modal s = commit_modal (app (scr_world s)) (scr_modal s).

(** The statuses the application knows. *)
Definition known_status (v : value) : Prop :=
  v = VStr "TO_DO" ∨ v = VStr "IN_PROGRESS" ∨ v = VStr "DONE".

(** A server that settles every request the same way and declines or
    accepts every prompt the same way; used for concrete runs. *)
Definition constant_env (o : outcome) (answer : bool) : env :=
  {| respond := λ _ _, o; confirm_answer := λ _ _, answer |}.

Definition empty_world (st : AppState) : world :=
  {| app := st; local_storage := ∅; trace := [] |}.

(** ** Session, start-up and the remaining wiring of [App.js] *)

Definition alert (msg : string) : prog unit :=
  λ _ w, (Ok (), log (EAlert msg) w).

(** [localStorage.getItem(k)]: the stored string, [null] when there is
    none. *)
Definition localStorage_getItem (k : string) : prog value :=
  λ _ w, (Ok (match local_storage w !! k with
              | Some s => VStr s
              | None => VNull
              end), w).

(** [localStorage.setItem(k, v)] stores the string conversion of [v];
    [ToString] is the conversion of the platform. *)
Definition localStorage_setItem (ToString : value → string) (k : string)
    (v : value) : prog unit :=
  λ _ w, (Ok (), with_storage (<[k := ToString v]>) w).

(** The request interceptor, lines 8-14, on the headers of an outgoing
    request: a stored, non-empty access token is attached as a bearer
    token. *)
Definition interceptor (ls : gmap string string)
    (headers : gmap string string) : gmap string string :=
  match ls !! "accessToken" with
  | Some token =>
      if Js.truthy (VStr token)
      then <["Authorization" := "Bearer " ++ token]> headers
      else headers
  | None => headers
  end.

(** [fetchUserProfile], lines 43-51. *)
Definition fetchUserProfile : prog unit :=
  try_catch
    (data ← await_axios GET [Lit "/users/users/1/"] VUndefined;
     setUser data)
    (λ error, console_error "Error fetching user profile:" error).

(** [handleLogin], lines 53-64. *)
Definition handleLogin (ToString : value → string) (credentials : value)
    : prog unit :=
  try_catch
    (data ← await_axios POST [Lit "users/auth/token/"] credentials;
     access ← lift (Js.get data "access");
     localStorage_setItem ToString "accessToken" access;;
     refresh ← lift (Js.get data "refresh");
     localStorage_setItem ToString "refreshToken" refresh;;
     fetchUserProfile;;
     fetchTasks)
    (λ error,
       console_error "Login error:" error;;
       alert "Login failed. Please check your credentials.").

(** [handleSubmit] of [LoginForm], lines 356-359, with [onLogin] bound to
    [handleLogin]. *)
Definition LoginForm_handleSubmit (ToString : value → string)
    (username password : value) : prog unit :=
  detached (handleLogin ToString
              (obj [("username", username); ("password", password)])).

(** The [onChange] of the status select of a task item, line 246, with
    [onStatusChange] bound to [handleStatusChange]. *)
Definition TaskItem_onChange (snap : AppState) (task newValue : value)
    : prog unit :=
  id ← lift (Js.get task "id");
  detached (handleStatusChange snap id newValue).

(** An axios call cut at its [await]: the request goes out and its fate is
    fixed by the environment ([issue]); the caller resumes with it later
    ([settle]). *)
Definition issue (m : method) (url : list url_part) (body : value)
    : prog outcome :=
  λ E w, let r := Request m url body in
         (Ok (respond E (trace w) r), log (EHttp r) w).

Definition settle (o : outcome) : prog value :=
  λ _ w, match o with
         | Resolved d => (Ok d, w)
         | Rejected e => (Throw (AxiosError e), w)
         end.

(** [fetchTasks] and [fetchUserProfile] from their [await] on. *)
Definition fetchTasks_resumed (o : outcome) : prog unit :=
  try_catch
    (data ← settle o;
     results ← lift (Js.get data "results");
     setTasks (Js.or results data))
    (λ error, console_error "Error fetching tasks:" error).

Definition fetchUserProfile_resumed (o : outcome) : prog unit :=
  try_catch
    (data ← settle o; setUser data)
    (λ error, console_error "Error fetching user profile:" error).

(** The mount effect, lines 25-32.  Neither call is awaited: the list
    request is out when the token is looked up, the profile request goes
    out next, and the two responses come back in either order
    ([tasks_first]). *)
Definition mount_effect (tasks_first : bool) : prog unit :=
  list ← issue GET [Lit "/tasks/tasks/"] VUndefined;
  token ← localStorage_getItem "accessToken";
  if Js.truthy token
  then
    profile ← issue GET [Lit "/users/users/1/"] VUndefined;
    if tasks_first
    then fetchTasks_resumed list;; fetchUserProfile_resumed profile
    else fetchUserProfile_resumed profile;; fetchTasks_resumed list
  else fetchTasks_resumed list.

(** ** Runs of the application *)

(** What can happen to the mounted component. *)
Inductive action : Type :=
  | AMount (tasks_first : bool)
  | ALogin (username password : value)
  | ALogout
  | AStatusChange (task newValue : value)
  | ASave (taskData : value)
  | ADelete (taskId : value)
  | APlan
  | ADismiss
  | ANewTask
  | AEdit (task : value)
  | AClose.

Definition handler (ToString : value → string) (a : action) (snap : AppState)
    : prog unit :=
  match a with
  | AMount tasks_first => mount_effect tasks_first
  | ALogin username password => LoginForm_handleSubmit ToString username password
  | ALogout => handleLogout
  | AStatusChange task newValue => TaskItem_onChange snap task newValue
  | ASave taskData => detached (handleSaveTask snap taskData)
  | ADelete taskId => detached (handleDeleteTask taskId)
  | APlan => detached handleAiSuggestion
  | ADismiss => dismiss
  | ANewTask => onNewTask
  | AEdit task => onEdit task
  | AClose => onClose
  end.

(** One action, from the closure of the current render. *)
Definition step (ToString : value → string) (E : env) (w : world)
    (a : action) : world :=
  run (handler ToString a (app w)) E w.

Definition steps (ToString : value → string) (E : env) (w : world)
    (acts : list action) : world :=
  foldl (step ToString E) w acts.

(** The component as mounted, over whatever [localStorage] holds. *)
Definition mounted (ls : gmap string string) : world :=
  {| app := initial_state; local_storage := ls; trace := [] |}.

(** What holds between two actions: the plan button is not left loading, a
    closed modal holds no task, and the collection is not [null] or
    [undefined]. *)
Definition quiescent (st : AppState) : Prop :=
  loading st = false ∧
  (showModal st = false → editingTask st = VNull) ∧
  Js.nullish (tasks st) = false.

Definition is_delete (e : event) : bool :=
  match e with
  | EHttp r => match req_method r with DELETE => true | _ => false end
  | _ => false
  end.

(** Every DELETE request of a log comes right after a prompt that was
    accepted. *)
Definition deletes_confirmed (E : env) (tr : list event) : Prop :=
  ∀ pre r post,
    tr = (pre ++ EHttp r :: post)%list → req_method r = DELETE →
    ∃ pre', pre = (pre' ++ [EConfirm delete_prompt])%list ∧
            confirm_answer E pre' delete_prompt = true.

(** A program only adds to the log, and what it adds satisfies [P]. *)
Definition appends (P : event → Prop) {A : Type} (c : prog A) : Prop :=
  ∀ E w, ∃ new, trace (c E w).2 = (trace w ++ new)%list ∧ Forall P new.

(** A program leaves a component of the world as it found it. *)
Definition keeps {B A : Type} (f : world → B) (c : prog A) : Prop :=
  ∀ E w, f (c E w).2 = f w.

(** The state with another collection. *)
Definition with_tasks (v : value) (s : AppState) : AppState :=
  {| tasks := v; showModal := showModal s; editingTask := editingTask s;
     aiSuggestion := aiSuggestion s; loading := loading s; user := user s |}.

(** A primitive value: compared by [===] it equals itself. *)
Definition is_primitive (v : value) : bool :=
  match v with
  | VArr _ | VObj _ => false
  | _ => true
  end.

(** The requests of the session: the credential exchange and the profile
    (always that of user 1, whoever logs in). *)
Definition token_request (credentials : value) : request :=
  Request POST [Lit "users/auth/token/"] credentials.

Definition profile_request : request :=
  Request GET [Lit "/users/users/1/"] VUndefined.

(** What makes the body of [handleLogin] throw before anything is stored:
    the token request is rejected, or it resolves with a [null] or
    [undefined] body, of which [.access] cannot be read. *)
Definition login_failure (o : outcome) : option exn :=
  match o with
  | Rejected e => Some (AxiosError e)
  | Resolved d => if Js.nullish d then Some TypeError else None
  end.

Definition is_alert (e : event) : bool :=
  match e with
  | EAlert _ => true
  | _ => false
  end.

(** The requests of a log, in order. *)
Definition is_request (e : event) : bool :=
  match e with
  | EHttp _ => true
  | _ => false
  end.

Definition requests (tr : list event) : list event := List.filter is_request tr.

(** A program keeps a property of the world, at every point where it
    may stop. *)
Definition preserves (I : world → Prop) {A : Type} (c : prog A) : Prop :=
  ∀ E w, I w → I (c E w).2.

(** The collection is there (not [null], not [undefined]). *)
Definition tasks_present (w : world) : Prop := Js.nullish (tasks (app w)) = false.

(** The actions that write [localStorage]. *)
Definition touches_session (a : action) : bool :=
  match a with
  | ALogin _ _ | ALogout => true
  | _ => false
  end.

(** The two parts of the main view: the task list as [render] computes it
    from the collection, and the view around it. *)
Definition render_tasks (v : value) : result TasksView :=
  len ← Js.get v "length";
  if Js.strict_eq len (VNum 0) then mret NoTasks
  else
    l ← Js.elements v;
    items ← Js.map_elems
              (λ task, key ← Js.get task "id";
                       item ← TaskItem task;
                       mret (key, item))
              l;
    mret (TasksList items).

Definition main_view (st : AppState) (list : TasksView) : MainView :=
  {| header_username := Js.get_opt (user st) "username";
     plan_button_disabled := loading st;
     plan_button_label := if loading st then "Generating..." else "Get Daily Plan";
     suggestion_panel :=
       if Js.truthy (aiSuggestion st)
       then Some (Js.get_opt (aiSuggestion st) "plan",
                  Js.get_opt (aiSuggestion st) "estimated_hours")
       else None;
     tasks_view := list;
     modal_task := if showModal st then Some (editingTask st) else None |}.

(** The state with another suggestion, and with another modal. *)
Definition with_suggestion (v : value) (s : AppState) : AppState :=
  {| tasks := tasks s; showModal := showModal s; editingTask := editingTask s;
     aiSuggestion := v; loading := loading s; user := user s |}.

Definition with_modal (b : bool) (task : value) (s : AppState) : AppState :=
  {| tasks := tasks s; showModal := b; editingTask := task;
     aiSuggestion := aiSuggestion s; loading := loading s; user := user s |}.

(** ** From the rendered elements to the screen *)

(** What React accepts as a child of an element: text and numbers, which
    it paints; booleans, [null] and [undefined], which it skips; arrays of
    such.  A plain object is refused ("Objects are not valid as a React
    child"). *)
Fixpoint valid_child (v : value) : bool :=
  match v with
  | VObj _ => false
  | VArr l => forallb valid_child l
  | _ => true
  end.

(** The interpolated children of a task item: [{task.title}],
    [{task.description}], [{task.total_minutes}], the badge label and the
    labels of the options. *)
Definition item_children (i : TaskItemView) : list value :=
  [item_title i; item_description i; item_minutes i; badge_label i]
    ++ (select_options i).*2.

Definition panel_children (p : option (value * value)) : list value :=
  match p with
  | Some (plan, hours) => [plan; hours]
  | None => []
  end.

Definition list_children (t : TasksView) : list value :=
  match t with
  | NoTasks => []
  | TasksList items => flat_map (λ ki, item_children ki.2) items
  end.

(** The interpolated children of a view: [{user.username}],
    [{aiSuggestion.plan}], [{aiSuggestion.estimated_hours}] and those of
    the items. *)
Definition view_children (v : View) : list value :=
  match v with
  | LoginView => []
  | AppView m =>
      header_username m
        :: panel_children (suggestion_panel m) ++ list_children (tasks_view m)
  end.

(** What is on the screen: the view the component functions return, when
    they return and React accepts every child; nothing otherwise (there is
    no error boundary, so an error while rendering unmounts the tree). *)
Definition display (st : AppState) : option View :=
  match render st with
  | Ok v => if forallb valid_child (view_children v) then Some v else None
  | Throw _ => None
  end.

(** The children a record and a state contribute. *)
Definition record_displayable (t : value) : bool :=
  valid_child (Js.get_opt t "title")
  && valid_child (Js.get_opt t "description")
  && valid_child (Js.get_opt t "total_minutes").

Definition suggestion_displayable (v : value) : bool :=
  if Js.truthy v
  then valid_child (Js.get_opt v "plan")
       && valid_child (Js.get_opt v "estimated_hours")
  else true.

Definition state_displayable (st : AppState) (l : list value) : bool :=
  valid_child (Js.get_opt (user st) "username")
  && suggestion_displayable (aiSuggestion st)
  && forallb record_displayable l.

(** The view after a plan request: the button idle again and the panel as
    given. *)
Definition with_panel (p : option (value * value)) (v : MainView) : MainView :=
  {| header_username := header_username v;
     plan_button_disabled := false;
     plan_button_label := "Get Daily Plan";
     suggestion_panel := p;
     tasks_view := tasks_view v;
     modal_task := modal_task v |}.

(** ** Concrete runs of the primitives *)

Example empty_array_is_truthy : Js.truthy (VArr []) = true.
Proof. reflexivity. Qed.

Example get_on_null_throws : Js.get VNull "results" = Throw TypeError.
Proof. reflexivity. Qed.

Example get_on_bare_array : Js.get (VArr [VNum 1]) "results" = Ok VUndefined.
Proof. reflexivity. Qed.

Example spread_of_record :
  Js.spread_with (obj [("id", VNum 5); ("status", VStr "TO_DO")]) "status" (VStr "DONE")
  = obj [("id", VNum 5); ("status", VStr "DONE")].
Proof. reflexivity. Qed.

Example spread_of_array :
  Js.spread_with (VArr [VNum 7; VNum 8]) "status" (VStr "DONE")
  = obj [("0", VNum 7); ("1", VNum 8); ("status", VStr "DONE")].
Proof. vm_compute. reflexivity. Qed.

Example map_over_non_array :
  Js.array_map (λ v, Ok v) (obj [("results", VNull)]) = Throw TypeError.
Proof. reflexivity. Qed.

(** A [null] body: reading [results] throws inside the [try], the catch
    logs, and the collection is left alone. *)
Example fetchTasks_null_body :
  run fetchTasks (constant_env (Resolved VNull) true) (empty_world initial_state)
  = {| app := initial_state; local_storage := ∅;
       trace := [EHttp list_request;
                 EConsoleError "Error fetching tasks:" TypeError] |}.
Proof. reflexivity. Qed.

(** A rejected list request: the same, with the rejection logged. *)
Example fetchTasks_rejected :
  run fetchTasks (constant_env (Rejected (VStr "Network Error")) true)
      (empty_world initial_state)
  = {| app := initial_state; local_storage := ∅;
       trace := [EHttp list_request;
                 EConsoleError "Error fetching tasks:"
                               (AxiosError (VStr "Network Error"))] |}.
Proof. reflexivity. Qed.

(** ** Refresh *)

Lemma fetchTasks_resolved E w data results :
  respond E (trace w) list_request = Resolved data →
  Js.get data "results" = Ok results →
  fetchTasks E w
  = (Ok (), with_app (λ s, {| tasks := Js.or results data;
                              showModal := showModal s;
                              editingTask := editingTask s;
                              aiSuggestion := aiSuggestion s;
                              loading := loading s; user := user s |})
                     (log (EHttp list_request) w)).
Proof.
  intros Hresp Hget.
  unfold fetchTasks, try_catch, mbind, prog_bind, await_axios, lift.
  fold list_request. rewrite Hresp, Hget. reflexivity.
Qed.

Lemma fetchTasks_completes E w : (fetchTasks E w).1 = Ok ().
Proof.
  unfold fetchTasks, try_catch, mbind, prog_bind, await_axios, lift.
  destruct (respond E (trace w) _) as [data | e]; [| reflexivity].
  destruct (Js.get data "results"); reflexivity.
Qed.

Lemma get_not_nullish v k : Js.nullish v = false → ∃ x, Js.get v k = Ok x.
Proof. destruct v; simpl; intros H; try discriminate; eauto. Qed.

Lemma get_body_results r :
  Js.get (body_of r) "results"
  = Ok (match r with BareList _ => VUndefined | Paginated ts _ => VArr ts end).
Proof.
  destruct r as [ts | ts others]; simpl; [reflexivity |].
  by rewrite lookup_insert_eq.
Qed.

Lemma refreshed_collection r :
  ∀ results, Js.get (body_of r) "results" = Ok results →
             Js.or results (body_of r) = VArr (collection_of r).
Proof.
  intros results. rewrite get_body_results. intros [= <-].
  destruct r; reflexivity.
Qed.

(** C3, as amended: for every list response whose body is not [null] or
    [undefined], [fetchTasks] replaces the whole collection by the body's
    [results] field when that field is truthy and by the body itself
    otherwise (so the fallback is taken for [undefined] and for every other
    falsy [results]); nothing else of the state changes, and the two
    scenarios hold: [{results: [T1, T2]}] gives [[T1, T2]] and the bare
    array [[T1]] gives [[T1]]. *)
Theorem fetchTasks_replaces_collection E w data :
  respond E (trace w) list_request = Resolved data →
  Js.nullish data = false →
  let w' := run fetchTasks E w in
  (∃ results, Js.get data "results" = Ok results ∧
              tasks (app w') = if Js.truthy results then results else data) ∧
  (∀ T1 T2 others, data = body_of (Paginated [T1; T2] others) →
                   tasks (app w') = VArr [T1; T2]) ∧
  (∀ T1, data = body_of (BareList [T1]) → tasks (app w') = VArr [T1]) ∧
  showModal (app w') = showModal (app w) ∧
  editingTask (app w') = editingTask (app w) ∧
  aiSuggestion (app w') = aiSuggestion (app w) ∧
  loading (app w') = loading (app w) ∧
  user (app w') = user (app w).
Proof.
  intros Hresp Hnn w'.
  destruct (get_not_nullish data "results" Hnn) as [results Hget].
  assert (Hw' : tasks (app w') = Js.or results data).
  { subst w'. unfold run. by rewrite (fetchTasks_resolved E w data results). }
  split; [by exists results |].
  split.
  { intros T1 T2 others ->. rewrite Hw'.
    by rewrite (refreshed_collection (Paginated [T1; T2] others) results Hget). }
  split.
  { intros T1 ->. rewrite Hw'.
    by rewrite (refreshed_collection (BareList [T1]) results Hget). }
  subst w'. unfold run. by rewrite (fetchTasks_resolved E w data results).
Qed.

Lemma fetchTasks_replaces_collection_witness :
  let data := obj [("results", VArr [VNum 1; VNum 2])] in
  let w := empty_world initial_state in
  tasks (app (run fetchTasks (constant_env (Resolved data) true) w))
  = VArr [VNum 1; VNum 2].
Proof.
  intros data w.
  assert (Hresp : respond (constant_env (Resolved data) true) (trace w) list_request
                  = Resolved data) by reflexivity.
  assert (Hnn : Js.nullish data = false) by reflexivity.
  destruct (fetchTasks_replaces_collection _ w data Hresp Hnn) as (_ & H & _).
  apply (H (VNum 1) (VNum 2) ∅). reflexivity.
Defined.

(** C3 as stated fails: with the body [{results: null}] the primary branch
    is [null], not [undefined], and still the fallback (the whole body) is
    what the collection becomes. *)
Lemma fetchTasks_fallback_on_null_results :
  let data := obj [("results", VNull)] in
  let w' := run fetchTasks (constant_env (Resolved data) true)
                (empty_world initial_state) in
  Js.get data "results" = Ok VNull ∧ VNull ≠ VUndefined ∧
  tasks (app w') = data ∧ tasks (app w') ≠ VNull.
Proof. repeat split; [discriminate | discriminate]. Qed.

(** C9: when the [results] field of the response body is present and falsy
    ([null], [false], [0], the empty string), the collection becomes the
    whole wrapper, not an empty list. *)
Theorem fetchTasks_falsy_results_keeps_wrapper E w (m : gmap string value) results :
  respond E (trace w) list_request = Resolved (VObj m) →
  m !! "results" = Some results →
  Js.truthy results = false →
  tasks (app (run fetchTasks E w)) = VObj m ∧
  tasks (app (run fetchTasks E w)) ≠ VArr [].
Proof.
  intros Hresp Hm Hfalsy.
  assert (Hget : Js.get (VObj m) "results" = Ok results) by (simpl; by rewrite Hm).
  unfold run. rewrite (fetchTasks_resolved E w (VObj m) results Hresp Hget).
  simpl. unfold Js.or. rewrite Hfalsy. by split.
Qed.

Lemma fetchTasks_falsy_results_keeps_wrapper_witness :
  tasks (app (run fetchTasks
                  (constant_env (Resolved (obj [("results", VNull); ("count", VNum 0)])) true)
                  (empty_world initial_state)))
  = obj [("results", VNull); ("count", VNum 0)].
Proof.
  refine (proj1 (fetchTasks_falsy_results_keeps_wrapper _ _ _ VNull _ _ _));
    reflexivity.
Defined.

(** ** Status change *)

Lemma map_elems_patched taskId newStatus (l : list value) :
  Forall (λ t, is_record t = true) l →
  Js.map_elems
    (λ task, id ← Js.get task "id";
             mret (if Js.strict_eq id taskId
                   then Js.spread_with task "status" newStatus
                   else task)) l
  = Ok (patched taskId newStatus <$> l).
Proof.
  induction 1 as [| t l Ht _ IH]; [reflexivity |].
  destruct t; try discriminate.
  cbn [Js.map_elems fmap list_fmap]. rewrite IH. reflexivity.
Qed.

Lemma handleStatusChange_resolved E w (l : list value) taskId newStatus d :
  tasks (app w) = VArr l →
  Forall (λ t, is_record t = true) l →
  respond E (trace w) (status_request taskId newStatus) = Resolved d →
  run (handleStatusChange (app w) taskId newStatus) E w
  = with_app (λ s, {| tasks := VArr (patched taskId newStatus <$> l);
                      showModal := showModal s; editingTask := editingTask s;
                      aiSuggestion := aiSuggestion s; loading := loading s;
                      user := user s |})
             (log (EHttp (status_request taskId newStatus)) w).
Proof.
  intros Htasks Hrec Hresp.
  pose proof (map_elems_patched taskId newStatus l Hrec) as Hmap.
  unfold run, handleStatusChange, try_catch, Js.array_map.
  unfold mbind in *. unfold prog_bind, await_axios, lift.
  fold (status_request taskId newStatus). rewrite Hresp, Htasks.
  cbn [Js.elements result_bind]. rewrite Hmap. reflexivity.
Qed.

Lemma get_spread_with_eq (m : gmap string value) k x :
  Js.get (Js.spread_with (VObj m) k x) k = Ok x.
Proof. simpl. by rewrite lookup_insert_eq. Qed.

Lemma get_spread_with_ne (m : gmap string value) k k' x :
  k ≠ k' → Js.get (Js.spread_with (VObj m) k x) k' = Js.get (VObj m) k'.
Proof. intros Hne. simpl. by rewrite lookup_insert_ne. Qed.

(** C1: when the collection holds exactly one record whose id is [taskId]
    (at position [i]) and the PATCH request resolves, [handleStatusChange]
    leaves a collection of the same length in which the record at [i] has
    [status = newStatus] and every other field as before, every other
    record is the one that was there, the rest of the state is untouched,
    and the only request sent is the PATCH: no list request follows. *)
Theorem handleStatusChange_frame E w (l : list value) taskId newStatus i t d :
  tasks (app w) = VArr l →
  Forall (λ t, is_record t = true) l →
  l !! i = Some t →
  has_id taskId t = true →
  (∀ j t', j ≠ i → l !! j = Some t' → has_id taskId t' = false) →
  respond E (trace w) (status_request taskId newStatus) = Resolved d →
  let w' := run (handleStatusChange (app w) taskId newStatus) E w in
  ∃ l' t',
    tasks (app w') = VArr l' ∧
    length l' = length l ∧
    l' !! i = Some t' ∧
    Js.get t' "status" = Ok newStatus ∧
    (∀ k, k ≠ "status" → Js.get t' k = Js.get t k) ∧
    (∀ j, j ≠ i → l' !! j = l !! j) ∧
    showModal (app w') = showModal (app w) ∧
    editingTask (app w') = editingTask (app w) ∧
    aiSuggestion (app w') = aiSuggestion (app w) ∧
    loading (app w') = loading (app w) ∧
    user (app w') = user (app w) ∧
    local_storage w' = local_storage w ∧
    trace w' = (trace w ++ [EHttp (status_request taskId newStatus)])%list.
Proof.
  intros Htasks Hrec Hi Hid Huniq Hresp w'.
  subst w'. rewrite (handleStatusChange_resolved E w l taskId newStatus d) by done.
  exists (patched taskId newStatus <$> l), (patched taskId newStatus t).
  assert (Ht : is_record t = true).
  { eapply (proj1 (Forall_lookup _ l)) in Hrec; eauto. }
  destruct t as [| | | | | | m]; try discriminate.
  split; [reflexivity |].
  split; [by rewrite length_fmap |].
  split; [by rewrite list_lookup_fmap, Hi |].
  unfold patched at 1 2. rewrite Hid.
  split; [apply get_spread_with_eq |].
  split; [intros k Hk; by apply get_spread_with_ne |].
  split; [| done].
  intros j Hj. rewrite list_lookup_fmap.
  destruct (l !! j) as [t' |] eqn:Hlj; [| reflexivity].
  simpl. unfold patched. by rewrite (Huniq j t' Hj Hlj).
Qed.

(** The scenario of the specification: [changeStatus(5, "DONE")] on
    [[{id: 5, status: "TO_DO"}, {id: 7, status: "DONE"}]]. *)
Lemma handleStatusChange_frame_witness :
  let l := [obj [("id", VNum 5); ("status", VStr "TO_DO")];
            obj [("id", VNum 7); ("status", VStr "DONE")]] in
  let st := {| tasks := VArr l; showModal := false; editingTask := VNull;
               aiSuggestion := VNull; loading := false;
               user := obj [("username", VStr "ana")] |} in
  let w' := run (handleStatusChange st (VNum 5) (VStr "DONE"))
                (constant_env (Resolved VNull) true) (empty_world st) in
  tasks (app w') = VArr [obj [("id", VNum 5); ("status", VStr "DONE")];
                         obj [("id", VNum 7); ("status", VStr "DONE")]] ∧
  ∃ l' t', tasks (app w') = VArr l' ∧ length l' = 2 ∧ l' !! 0 = Some t' ∧
           Js.get t' "status" = Ok (VStr "DONE").
Proof.
  intros l st w'. split; [reflexivity |].
  destruct (handleStatusChange_frame
              (constant_env (Resolved VNull) true) (empty_world st) l
              (VNum 5) (VStr "DONE") 0 (obj [("id", VNum 5); ("status", VStr "TO_DO")])
              VNull)
    as (l' & t' & H1 & H2 & H3 & H4 & _).
  - reflexivity.
  - repeat constructor.
  - reflexivity.
  - reflexivity.
  - intros [| [| j]] t'' Hj Hl; [done | | done].
    injection Hl as <-. reflexivity.
  - reflexivity.
  - exists l', t'. auto.
Defined.

(** ** Create, update, delete *)

Lemma get_truthy v k : Js.truthy v = true → Js.get v k = Ok (Js.get_opt v k).
Proof. destruct v; simpl; intros H; try discriminate; reflexivity. Qed.

Lemma handleSaveTask_resolved E w snap taskData d :
  respond E (trace w) (save_request snap taskData) = Resolved d →
  run (handleSaveTask snap taskData) E w
  = run fetchTasks E
        (with_app closed_modal (log (EHttp (save_request snap taskData)) w)).
Proof.
  unfold save_request, run, handleSaveTask, try_catch, detached.
  unfold mbind. unfold prog_bind, await_axios, lift, setShowModal,
    setEditingTask, set_state.
  destruct (Js.truthy (editingTask snap)) eqn:Hedit; intros Hresp.
  - rewrite (get_truthy _ "id" Hedit), Hresp. cbn [fst snd].
    unfold with_app, closed_modal; simpl.
    by destruct (fetchTasks E _).
  - rewrite Hresp. unfold with_app, closed_modal; simpl.
    by destruct (fetchTasks E _).
Qed.

Lemma handleSaveTask_rejected E w snap taskData e :
  respond E (trace w) (save_request snap taskData) = Rejected e →
  run (handleSaveTask snap taskData) E w
  = log (EConsoleError "Error saving task:" (AxiosError e))
        (log (EHttp (save_request snap taskData)) w).
Proof.
  unfold save_request, run, handleSaveTask, try_catch, detached.
  unfold mbind. unfold prog_bind, await_axios, lift, console_error.
  destruct (Js.truthy (editingTask snap)) eqn:Hedit; intros Hresp.
  - by rewrite (get_truthy _ "id" Hedit), Hresp.
  - by rewrite Hresp.
Qed.

Lemma handleDeleteTask_declined E w taskId :
  confirm_answer E (trace w) delete_prompt = false →
  run (handleDeleteTask taskId) E w = log (EConfirm delete_prompt) w.
Proof.
  intros Hno. unfold run, handleDeleteTask, window_confirm.
  unfold mbind. unfold prog_bind. fold delete_prompt. by rewrite Hno.
Qed.

Lemma handleDeleteTask_resolved E w taskId d :
  confirm_answer E (trace w) delete_prompt = true →
  respond E (trace w ++ [EConfirm delete_prompt]) (delete_request taskId)
  = Resolved d →
  run (handleDeleteTask taskId) E w
  = run fetchTasks E
        (log (EHttp (delete_request taskId)) (log (EConfirm delete_prompt) w)).
Proof.
  intros Hyes Hresp.
  unfold run, handleDeleteTask, window_confirm, try_catch, detached.
  unfold mbind. unfold prog_bind, await_axios. fold delete_prompt.
  rewrite Hyes. cbn [trace log]. fold (delete_request taskId). rewrite Hresp.
  by destruct (fetchTasks E _).
Qed.

Lemma handleDeleteTask_rejected E w taskId e :
  confirm_answer E (trace w) delete_prompt = true →
  respond E (trace w ++ [EConfirm delete_prompt]) (delete_request taskId)
  = Rejected e →
  run (handleDeleteTask taskId) E w
  = log (EConsoleError "Error deleting task:" (AxiosError e))
        (log (EHttp (delete_request taskId)) (log (EConfirm delete_prompt) w)).
Proof.
  intros Hyes Hresp.
  unfold run, handleDeleteTask, window_confirm, try_catch, detached.
  unfold mbind. unfold prog_bind, await_axios, console_error. fold delete_prompt.
  rewrite Hyes. cbn [trace log]. fold (delete_request taskId). by rewrite Hresp.
Qed.

(** C2: a save (create, or update when a task is being edited) or a
    delete that goes ahead and whose write request resolves is followed by
    the list request, and when that resolves with a list response (bare or
    paginated) the local collection is exactly the collection of that
    response, whatever the collection and the draft were before. *)
Theorem mutation_refreshes E w op r d :
  goes_ahead E w op = true →
  respond E (trace w ++ prelude op) (write_request (app w) op) = Resolved d →
  respond E (trace w ++ prelude op ++ [EHttp (write_request (app w) op)])
          list_request = Resolved (body_of r) →
  let w' := run (perform (app w) op) E w in
  tasks (app w') = VArr (collection_of r) ∧
  trace w' = (trace w ++ prelude op
                ++ [EHttp (write_request (app w) op); EHttp list_request])%list.
Proof.
  intros Hgo Hwrite Hlist w'. subst w'.
  destruct (get_not_nullish (body_of r) "results") as [results Hget];
    [by destruct r |].
  destruct op as [taskData | taskId]; cbn [perform write_request prelude] in *.
  - rewrite app_nil_r in Hwrite.
    rewrite (handleSaveTask_resolved E w (app w) taskData d Hwrite).
    unfold run. erewrite fetchTasks_resolved; [| exact Hlist | exact Hget].
    cbn. by rewrite (refreshed_collection r results Hget), <- app_assoc.
  - rewrite (handleDeleteTask_resolved E w taskId d Hgo Hwrite).
    unfold run. erewrite fetchTasks_resolved; [| | exact Hget].
    + cbn. by rewrite (refreshed_collection r results Hget), <- !app_assoc.
    + cbn. rewrite <- app_assoc. exact Hlist.
Qed.

Lemma mutation_refreshes_witness :
  let st := {| tasks := VArr [obj [("id", VNum 1)]]; showModal := true;
               editingTask := VNull; aiSuggestion := VNull; loading := false;
               user := obj [("username", VStr "ana")] |} in
  let E := constant_env (Resolved (body_of (Paginated [obj [("id", VNum 9)]] ∅))) true in
  tasks (app (run (perform st (Save (obj [("title", VStr "t")]))) E (empty_world st)))
  = VArr [obj [("id", VNum 9)]] ∧
  tasks (app (run (perform st (Delete (VNum 1))) E (empty_world st)))
  = VArr [obj [("id", VNum 9)]] ∧
  let st_edit := {| tasks := tasks st; showModal := true;
                    editingTask := obj [("id", VNum 1)];
                    aiSuggestion := VNull; loading := false; user := user st |} in
  trace (run (perform st_edit (Save (obj [("title", VStr "t")]))) E
             (empty_world st_edit))
  = [EHttp (Request PUT [Lit "/tasks/tasks/"; Interp (VNum 1); Lit "/"]
                    (obj [("title", VStr "t")]));
     EHttp list_request].
Proof.
  intros st E. split; [| split].
  - refine (proj1 (mutation_refreshes E (empty_world st) (Save _)
                     (Paginated [obj [("id", VNum 9)]] ∅) _ _ _ _)); reflexivity.
  - refine (proj1 (mutation_refreshes E (empty_world st) (Delete _)
                     (Paginated [obj [("id", VNum 9)]] ∅) _ _ _ _)); reflexivity.
  - intros st_edit.
    refine (proj2 (mutation_refreshes E (empty_world st_edit) (Save _)
                     (Paginated [obj [("id", VNum 9)]] ∅) _ _ _ _)); reflexivity.
Defined.

(** ** The form *)

Lemma fetchTasks_frame E w :
  let w' := run fetchTasks E w in
  showModal (app w') = showModal (app w) ∧
  editingTask (app w') = editingTask (app w) ∧
  aiSuggestion (app w') = aiSuggestion (app w) ∧
  loading (app w') = loading (app w) ∧
  user (app w') = user (app w) ∧
  local_storage w' = local_storage w.
Proof.
  unfold run, fetchTasks, try_catch. unfold mbind.
  unfold prog_bind, await_axios, lift, console_error, setTasks, set_state.
  destruct (respond E (trace w) _) as [data | e]; [| done].
  destruct (Js.get data "results"); done.
Qed.

Lemma render_modal_task st v :
  render st = Ok (AppView v) →
  modal_task v = if showModal st then Some (editingTask st) else None.
Proof.
  unfold render. destruct (negb _); [discriminate |].
  unfold mbind, mret, result_bind, result_ret.
  repeat case_match; intros [= <-]; reflexivity.
Qed.

Lemma commit_modal_closed st m : showModal st = false → commit_modal st m = None.
Proof.
  intros Hclosed. unfold commit_modal.
  destruct (render st) as [[| v] | e] eqn:Hrender; try reflexivity.
  by rewrite (render_modal_task st v Hrender), Hclosed.
Qed.

Lemma commit_modal_mounted st m m' :
  commit_modal st (Some m) = Some m' → m' = m.
Proof.
  unfold commit_modal.
  destruct (render st) as [[| v] | e]; try discriminate.
  destruct (modal_task v); [| discriminate]. by intros [= <-].
Qed.

(** C4, as amended: a form submission whose save request resolves closes
    the modal and discards the edit buffer ([showModal] is false,
    [editingTask] is null, the form instance is unmounted); one whose save
    request is rejected changes nothing of the state: the modal stays as
    it was and the form keeps its buffer. *)
Theorem submit_closes_on_success parseInt E s m :
  consistent s →
  scr_modal s = Some m →
  let w := scr_world s in
  let s' := submit parseInt E s in
  match respond E (trace w) (save_request (app w) (draft parseInt m)) with
  | Resolved _ =>
      showModal (app (scr_world s')) = false ∧
      editingTask (app (scr_world s')) = VNull ∧
      scr_modal s' = None
  | Rejected _ =>
      app (scr_world s') = app w ∧
      scr_modal s' = Some m
  end.
Proof.
  intros Hcons Hm w s'. subst s' w. unfold submit. rewrite Hm.
  unfold dispatch, handleSubmit.
  assert (Hrun : ∀ c, run (detached c) E (scr_world s) = run c E (scr_world s)).
  { intros c. unfold run, detached. by destruct (c E (scr_world s)). }
  rewrite Hrun.
  destruct (respond E (trace (scr_world s)) _) as [d | e] eqn:Hresp; cbn [scr_world scr_modal].
  - rewrite (handleSaveTask_resolved E _ _ _ d Hresp).
    destruct (fetchTasks_frame E
                (with_app closed_modal
                   (log (EHttp (save_request (app (scr_world s)) (draft parseInt m)))
                        (scr_world s)))) as (Hshow & Hedit & _).
    cbn [app with_app closed_modal showModal editingTask] in Hshow, Hedit.
    split; [exact Hshow |]. split; [exact Hedit |].
    by apply commit_modal_closed.
  - rewrite (handleSaveTask_rejected E _ _ _ e Hresp). cbn [app log].
    split; [reflexivity |].
    unfold consistent in Hcons. rewrite Hm in *. symmetry. exact Hcons.
Qed.

Lemma submit_closes_on_success_witness :
  let st := {| tasks := VArr []; showModal := true; editingTask := VNull;
               aiSuggestion := VNull; loading := false;
               user := obj [("username", VStr "ana")] |} in
  let s := {| scr_world := empty_world st;
              scr_modal := Some (TaskModal_init VNull) |} in
  let s' := submit (λ v, v) (constant_env (Resolved (VArr [])) true) s in
  consistent s ∧
  showModal (app (scr_world s')) = false ∧
  editingTask (app (scr_world s')) = VNull ∧
  scr_modal s' = None.
Proof.
  intros st s s'. split; [reflexivity |].
  exact (submit_closes_on_success (λ v, v) (constant_env (Resolved (VArr [])) true)
           s (TaskModal_init VNull) eq_refl eq_refl).
Defined.

(** C4 as stated fails: when the POST of a new task is rejected, the modal
    is still open after the call has settled and the form still holds its
    buffer. *)
Lemma submit_rejected_keeps_modal_open :
  let st := {| tasks := VArr []; showModal := true; editingTask := VNull;
               aiSuggestion := VNull; loading := false;
               user := obj [("username", VStr "ana")] |} in
  let s := {| scr_world := empty_world st;
              scr_modal := Some (TaskModal_init VNull) |} in
  let s' := submit (λ v, v) (constant_env (Rejected VNull) true) s in
  showModal (app (scr_world s')) = true ∧
  scr_modal s' = Some (TaskModal_init VNull) ∧
  render (app (scr_world s'))
  = Ok (AppView {| header_username := VStr "ana";
                   plan_button_disabled := false;
                   plan_button_label := "Get Daily Plan";
                   suggestion_panel := None;
                   tasks_view := NoTasks;
                   modal_task := Some VNull |}).
Proof. repeat split. Qed.

(** ** The AI suggestion *)

(** C5, as amended: once the plan request has settled the loading flag
    is cleared, whatever the outcome.  When the request was rejected the
    stored suggestion is the fixed fallback with [estimated_hours = 0],
    which is never absent.  When it resolved the stored suggestion is the
    response body whatever it is: it is not absent when the body is truthy
    (the server's [{plan, estimated_hours}] object), and nothing replaces
    a body that is itself absent. *)
Theorem handleAiSuggestion_settles E w :
  let w' := run handleAiSuggestion E w in
  loading (app w') = false ∧
  match respond E (trace w) plan_request with
  | Resolved d =>
      aiSuggestion (app w') = d ∧
      (Js.truthy d = true →
       aiSuggestion (app w') ≠ VNull ∧ Js.truthy (aiSuggestion (app w')) = true)
  | Rejected _ =>
      aiSuggestion (app w') = fallback_suggestion ∧
      aiSuggestion (app w') ≠ VNull ∧
      Js.truthy (aiSuggestion (app w')) = true ∧
      Js.get (aiSuggestion (app w')) "estimated_hours" = Ok (VNum 0) ∧
      Js.get (aiSuggestion (app w')) "plan"
      = Ok (VStr "Could not generate plan. Please try again later.")
  end.
Proof.
  intros w'. subst w'.
  unfold run, handleAiSuggestion, try_finally, try_catch.
  unfold mbind. unfold prog_bind, await_axios, setLoading, setAiSuggestion,
    console_error, set_state.
  cbn [trace with_app]. fold plan_request.
  destruct (respond E (trace w) plan_request) as [d | e] eqn:Hresp; cbn.
  - split; [reflexivity |]. split; [reflexivity |].
    intros Hd. split; [| exact Hd]. by destruct d.
  - done.
Qed.

Lemma handleAiSuggestion_settles_witness :
  let body := obj [("plan", VStr "Write the report"); ("estimated_hours", VNum 3)] in
  let E := constant_env (Resolved body) true in
  let w' := run handleAiSuggestion E (empty_world initial_state) in
  Js.truthy body = true ∧
  loading (app w') = false ∧ aiSuggestion (app w') = body ∧
  aiSuggestion (app w') ≠ VNull.
Proof.
  intros body E w'.
  destruct (handleAiSuggestion_settles E (empty_world initial_state))
    as (Hload & Hstored & Hpresent).
  destruct (Hpresent eq_refl) as (Hnot_null & _).
  split; [reflexivity |]. split; [exact Hload |]. split; [exact Hstored |].
  exact Hnot_null.
Defined.

(** C5 as stated fails: a plan request that succeeds with a [null] body
    leaves the stored suggestion absent (and the panel unrendered), the
    loading flag being cleared all the same. *)
Lemma handleAiSuggestion_null_body_absent :
  let st := {| tasks := VArr []; showModal := false; editingTask := VNull;
               aiSuggestion := VNull; loading := false;
               user := obj [("username", VStr "ana")] |} in
  let E := constant_env (Resolved VNull) true in
  let w' := run handleAiSuggestion E (empty_world st) in
  respond E (trace (empty_world st)) plan_request = Resolved VNull ∧
  completion handleAiSuggestion E (empty_world st) = Ok () ∧
  aiSuggestion (app w') = VNull ∧
  Js.truthy (aiSuggestion (app w')) = false ∧
  loading (app w') = false ∧
  render (app w')
  = Ok (AppView {| header_username := VStr "ana";
                   plan_button_disabled := false;
                   plan_button_label := "Get Daily Plan";
                   suggestion_panel := None;
                   tasks_view := NoTasks;
                   modal_task := None |}).
Proof. repeat split. Qed.

(** C8: dismissing the suggestion leaves it absent, and dismissing again
    changes nothing: the world after the second call is the world after
    the first. *)
Theorem dismiss_idempotent E w :
  aiSuggestion (app (run dismiss E w)) = VNull ∧
  aiSuggestion (app (run dismiss E (run dismiss E w))) = VNull ∧
  run dismiss E (run dismiss E w) = run dismiss E w.
Proof. repeat split. Qed.

(** ** Logout *)

(** C6: from any state [handleLogout] removes both tokens, clears the
    user and empties the task collection, without prompting and without
    any request, and the render that follows is the login view. *)
Theorem handleLogout_clears E w :
  let w' := run handleLogout E w in
  user (app w') = VNull ∧
  tasks (app w') = VArr [] ∧
  local_storage w' !! "accessToken" = None ∧
  local_storage w' !! "refreshToken" = None ∧
  trace w' = trace w ∧
  completion handleLogout E w = Ok () ∧
  render (app w') = Ok LoginView.
Proof.
  unfold completion, run, handleLogout. unfold mbind.
  unfold prog_bind, localStorage_removeItem, setUser, setTasks, set_state.
  cbn [fst snd app with_app with_storage local_storage trace user tasks].
  repeat split.
  - rewrite lookup_delete_ne by done. apply lookup_delete_eq.
  - apply lookup_delete_eq.
Qed.

(** ** Delete confirmation *)

(** C7: [handleDeleteTask] first prompts.  When the prompt is declined the
    prompt is all that happened: no request is sent and the state (the
    collection with it) is unchanged.  When it is accepted the DELETE
    request is the next thing after the prompt. *)
Theorem handleDeleteTask_confirmation E w taskId :
  let w' := run (handleDeleteTask taskId) E w in
  if confirm_answer E (trace w) delete_prompt
  then ∃ rest, trace w' = (trace w ++ EConfirm delete_prompt
                             :: EHttp (delete_request taskId) :: rest)%list
  else app w' = app w ∧
       local_storage w' = local_storage w ∧
       trace w' = (trace w ++ [EConfirm delete_prompt])%list ∧
       (∀ r, EHttp r ∉ drop (length (trace w)) (trace w')).
Proof.
  intros w'. subst w'.
  destruct (confirm_answer E (trace w) delete_prompt) eqn:Hanswer.
  - destruct (respond E (trace w ++ [EConfirm delete_prompt])
                      (delete_request taskId)) as [d | e] eqn:Hresp.
    + rewrite (handleDeleteTask_resolved E w taskId d Hanswer Hresp).
      unfold run, fetchTasks, try_catch. unfold mbind.
      unfold prog_bind, await_axios, lift, console_error, setTasks, set_state.
      destruct (respond E _ (Request GET _ _)) as [data | e'].
      * destruct (Js.get data "results"); cbn; rewrite <- !app_assoc; eauto.
      * cbn; rewrite <- !app_assoc; eauto.
    + rewrite (handleDeleteTask_rejected E w taskId e Hanswer Hresp).
      cbn. rewrite <- !app_assoc. eauto.
  - rewrite (handleDeleteTask_declined E w taskId Hanswer).
    repeat split. intros r Hr. cbn [trace log] in Hr.
    rewrite drop_app_length in Hr. apply list_elem_of_singleton in Hr.
    discriminate.
Qed.

(** ** Status badge *)

Lemma strict_eq_str_other x v : v ≠ VStr x → Js.strict_eq (VStr x) v = false.
Proof.
  intros Hne. destruct v; try reflexivity. simpl.
  apply bool_decide_eq_false. congruence.
Qed.

Lemma getStatusInfo_unknown statusValue :
  ¬ known_status statusValue →
  getStatusInfo statusValue = Ok (Js.at_index statusOptions 0).
Proof.
  intros Hunknown. unfold known_status in Hunknown.
  unfold getStatusInfo, statusOptions, Js.array_find.
  cbn [foldr]. unfold mbind, mret, result_bind, result_ret.
  change (Js.get (obj [("value", VStr "TO_DO"); ("label", VStr "To Do");
                       ("color", VStr "#ffbe0b")]) "value")
    with (Ok (VStr "TO_DO")).
  change (Js.get (obj [("value", VStr "IN_PROGRESS"); ("label", VStr "In Progress");
                       ("color", VStr "#3a86ff")]) "value")
    with (Ok (VStr "IN_PROGRESS")).
  change (Js.get (obj [("value", VStr "DONE"); ("label", VStr "Done");
                       ("color", VStr "#06d6a0")]) "value")
    with (Ok (VStr "DONE")).
  cbv beta iota.
  rewrite !strict_eq_str_other by tauto. reflexivity.
Qed.

(** C10: for a status value that is none of [TO_DO], [IN_PROGRESS] and
    [DONE], [getStatusInfo] returns the first option, and a task record
    carrying such a status is rendered, with the label "To Do" and its
    colour, rather than failing. *)
Theorem unknown_status_shown_as_to_do (m : gmap string value) :
  ¬ known_status (default VUndefined (m !! "status")) →
  getStatusInfo (default VUndefined (m !! "status"))
  = Ok (Js.at_index statusOptions 0) ∧
  ∃ view, TaskItem (VObj m) = Ok view ∧
          badge_label view = VStr "To Do" ∧
          badge_color view = VStr "#ffbe0b" ∧
          select_value view = default VUndefined (m !! "status").
Proof.
  intros Hunknown.
  pose proof (getStatusInfo_unknown _ Hunknown) as Hinfo.
  split; [exact Hinfo |].
  unfold TaskItem. cbn [Js.get]. unfold mbind at 1. cbn [result_bind].
  unfold mbind at 1. rewrite Hinfo. cbn [result_bind].
  eexists. split; [reflexivity |]. by repeat split.
Qed.

Lemma unknown_status_shown_as_to_do_witness :
  ∃ view,
    TaskItem (obj [("id", VNum 3); ("title", VStr "t"); ("status", VStr "BLOCKED")])
    = Ok view ∧ badge_label view = VStr "To Do".
Proof.
  destruct (unknown_status_shown_as_to_do
              (list_to_map [("id", VNum 3); ("title", VStr "t");
                            ("status", VStr "BLOCKED")]))
    as (_ & view & Hview & Hlabel & _).
  - intros [H | [H | H]]; vm_compute in H; discriminate H.
  - exists view. split; [exact Hview | exact Hlabel].
Defined.

(** ** Reasoning about programs by their structure *)

Section Keeps.
Context {B : Type} (f : world → B).

Lemma keeps_ret {A} (a : A) : keeps f (mret a : prog A).
Proof. intros E w. reflexivity. Qed.

Lemma keeps_bind {A C} (c : prog A) (k : A → prog C) :
  keeps f c → (∀ a, keeps f (k a)) → keeps f (c ≫= k).
Proof.
  intros Hc Hk E w. unfold mbind, prog_bind.
  specialize (Hc E w). destruct (c E w) as [[a | e] w1]; [| exact Hc].
  rewrite <- Hc. apply Hk.
Qed.

Lemma keeps_try_catch {A} (c : prog A) (h : exn → prog A) :
  keeps f c → (∀ e, keeps f (h e)) → keeps f (try_catch c h).
Proof.
  intros Hc Hh E w. unfold try_catch.
  specialize (Hc E w). destruct (c E w) as [[a | e] w1]; [exact Hc |].
  rewrite <- Hc. apply Hh.
Qed.

Lemma keeps_try_finally {A} (c : prog A) (fin : prog unit) :
  keeps f c → keeps f fin → keeps f (try_finally c fin).
Proof.
  intros Hc Hfin E w. unfold try_finally.
  specialize (Hc E w). destruct (c E w) as [r w1].
  specialize (Hfin E w1). destruct (fin E w1) as [[[] | e] w2];
    simpl in *; congruence.
Qed.

Lemma keeps_detached (c : prog unit) : keeps f c → keeps f (detached c).
Proof.
  intros Hc E w. unfold detached. specialize (Hc E w).
  by destruct (c E w).
Qed.

Lemma keeps_lift {A} (r : result A) : keeps f (lift r).
Proof. intros E w. reflexivity. Qed.
End Keeps.

Section Appends.
Context (P : event → Prop).

Lemma appends_ret {A} (a : A) : appends P (mret a : prog A).
Proof. intros E w. exists []. by rewrite app_nil_r. Qed.

Lemma appends_bind {A C} (c : prog A) (k : A → prog C) :
  appends P c → (∀ a, appends P (k a)) → appends P (c ≫= k).
Proof.
  intros Hc Hk E w. unfold mbind, prog_bind.
  destruct (Hc E w) as (new1 & Htr1 & HP1).
  destruct (c E w) as [[a | e] w1]; [| by exists new1].
  destruct (Hk a E w1) as (new2 & Htr2 & HP2).
  exists (new1 ++ new2)%list. split; [| by apply Forall_app].
  rewrite Htr2. simpl in Htr1. by rewrite Htr1, app_assoc.
Qed.

Lemma appends_try_catch {A} (c : prog A) (h : exn → prog A) :
  appends P c → (∀ e, appends P (h e)) → appends P (try_catch c h).
Proof.
  intros Hc Hh E w. unfold try_catch.
  destruct (Hc E w) as (new1 & Htr1 & HP1).
  destruct (c E w) as [[a | e] w1]; [by exists new1 |].
  destruct (Hh e E w1) as (new2 & Htr2 & HP2).
  exists (new1 ++ new2)%list. split; [| by apply Forall_app].
  rewrite Htr2. simpl in Htr1. by rewrite Htr1, app_assoc.
Qed.

Lemma appends_try_finally {A} (c : prog A) (fin : prog unit) :
  appends P c → appends P fin → appends P (try_finally c fin).
Proof.
  intros Hc Hfin E w. unfold try_finally.
  destruct (Hc E w) as (new1 & Htr1 & HP1).
  destruct (c E w) as [r w1].
  destruct (Hfin E w1) as (new2 & Htr2 & HP2).
  exists (new1 ++ new2)%list. split; [| by apply Forall_app].
  simpl in Htr1. rewrite app_assoc, <- Htr1.
  by destruct (fin E w1) as [[[] | e] w2].
Qed.

Lemma appends_detached (c : prog unit) : appends P c → appends P (detached c).
Proof.
  intros Hc E w. unfold detached. destruct (Hc E w) as (new & Htr & HP).
  exists new. by destruct (c E w).
Qed.

Lemma appends_silent {A} (c : prog A) :
  keeps trace c → appends P c.
Proof. intros Hc E w. exists []. by rewrite app_nil_r, Hc. Qed.

Lemma appends_await m url body :
  P (EHttp (Request m url body)) → appends P (await_axios m url body).
Proof.
  intros HP E w. exists [EHttp (Request m url body)].
  unfold await_axios. split; [| by repeat constructor].
  by destruct (respond E (trace w) _).
Qed.

Lemma appends_issue m url body :
  P (EHttp (Request m url body)) → appends P (issue m url body).
Proof. intros HP E w. exists [EHttp (Request m url body)]. by repeat constructor. Qed.

Lemma appends_console_error msg e :
  P (EConsoleError msg e) → appends P (console_error msg e).
Proof. intros HP E w. exists [EConsoleError msg e]. by repeat constructor. Qed.

Lemma appends_alert msg : P (EAlert msg) → appends P (alert msg).
Proof. intros HP E w. exists [EAlert msg]. by repeat constructor. Qed.

Lemma appends_confirm msg : P (EConfirm msg) → appends P (window_confirm msg).
Proof. intros HP E w. exists [EConfirm msg]. by repeat constructor. Qed.
End Appends.

(** A program that only reads or writes cells the observation does not
    look at. *)
Ltac keeps_primitive :=
  let E := fresh "E" in let w := fresh "w" in
  intros E w;
  unfold await_axios, issue, settle, window_confirm, console_error, alert,
    localStorage_getItem, localStorage_setItem, localStorage_removeItem,
    setTasks, setShowModal, setEditingTask, setAiSuggestion, setLoading,
    setUser, set_state, lift;
  repeat case_match; reflexivity.

Ltac keeps_structure :=
  repeat first
    [ apply keeps_bind; [| intros ?]
    | apply keeps_try_catch; [| intros ?]
    | apply keeps_try_finally
    | apply keeps_detached
    | apply keeps_ret
    | match goal with |- keeps _ (if ?b then _ else _) => destruct b end
    | keeps_primitive ].

Ltac appends_structure :=
  repeat first
    [ apply appends_bind; [| intros ?]
    | apply appends_try_catch; [| intros ?]
    | apply appends_try_finally
    | apply appends_detached
    | apply appends_ret
    | apply appends_await; done
    | apply appends_issue; done
    | apply appends_console_error; done
    | apply appends_alert; done
    | apply appends_confirm; done
    | match goal with |- appends _ (if ?b then _ else _) => destruct b end
    | apply appends_silent; keeps_primitive ].

Lemma fetchTasks_keeps_storage : keeps local_storage fetchTasks.
Proof. unfold fetchTasks. keeps_structure. Qed.

Lemma fetchTasks_no_delete : appends (λ e, is_delete e = false) fetchTasks.
Proof. unfold fetchTasks. appends_structure. Qed.

(** ** Status change: failure and edge cases *)

Lemma handleStatusChange_rejected E w snap taskId newStatus e :
  respond E (trace w) (status_request taskId newStatus) = Rejected e →
  run (handleStatusChange snap taskId newStatus) E w
  = log (EConsoleError "Error updating task status:" (AxiosError e))
        (log (EHttp (status_request taskId newStatus)) w).
Proof.
  intros Hresp. unfold run, handleStatusChange, try_catch.
  unfold mbind. unfold prog_bind, await_axios, console_error.
  fold (status_request taskId newStatus). by rewrite Hresp.
Qed.

(** X1: a rejected PATCH changes nothing locally: the state and the storage
    are as before, and the log shows the request and the logged error,
    with no other request. *)
Theorem handleStatusChange_rejected_unchanged E w taskId newStatus e :
  respond E (trace w) (status_request taskId newStatus) = Rejected e →
  let w' := run (handleStatusChange (app w) taskId newStatus) E w in
  app w' = app w ∧
  local_storage w' = local_storage w ∧
  trace w' = (trace w ++ [EHttp (status_request taskId newStatus);
                          EConsoleError "Error updating task status:"
                                        (AxiosError e)])%list.
Proof.
  intros Hresp w'. subst w'.
  rewrite (handleStatusChange_rejected E w (app w) taskId newStatus e Hresp).
  cbn [app local_storage trace log]. by rewrite <- app_assoc.
Qed.

Lemma handleStatusChange_rejected_unchanged_witness :
  let l := [obj [("id", VNum 5); ("status", VStr "TO_DO")]] in
  let st := with_tasks (VArr l) initial_state in
  let E := constant_env (Rejected (VStr "Network Error")) true in
  respond E [] (status_request (VNum 5) (VStr "DONE")) = Rejected (VStr "Network Error") ∧
  tasks (app (run (handleStatusChange st (VNum 5) (VStr "DONE")) E (empty_world st)))
  = VArr l.
Proof.
  intros l st E. split; [reflexivity |].
  destruct (handleStatusChange_rejected_unchanged E (empty_world st)
              (VNum 5) (VStr "DONE") (VStr "Network Error") eq_refl) as (Happ & _).
  change (app (empty_world st)) with st in Happ. by rewrite Happ.
Defined.

(** X2: with a resolved PATCH for a primitive [taskId] on a collection of
    records, every record whose id is [taskId] gets the new status (not
    only the first one), every record keeps its position, its id and its
    other fields, and a record with another id is left as it is; when no
    record has the id the collection is unchanged. *)
Theorem handleStatusChange_patches_every_match E w (l : list value)
    taskId newStatus d :
  is_primitive taskId = true →
  tasks (app w) = VArr l →
  Forall (λ t, is_record t = true) l →
  respond E (trace w) (status_request taskId newStatus) = Resolved d →
  let w' := run (handleStatusChange (app w) taskId newStatus) E w in
  ∃ l',
    tasks (app w') = VArr l' ∧
    length l' = length l ∧
    (∀ i t, l !! i = Some t →
       ∃ t', l' !! i = Some t' ∧
             (∀ k, k ≠ "status" → Js.get t' k = Js.get t k) ∧
             (if has_id taskId t then Js.get t' "status" = Ok newStatus
              else t' = t)) ∧
    (Forall (λ t, has_id taskId t = false) l → l' = l).
Proof.
  intros _ Htasks Hrec Hresp w'. subst w'.
  rewrite (handleStatusChange_resolved E w l taskId newStatus d) by done.
  exists (patched taskId newStatus <$> l). cbn [app with_app tasks].
  split; [reflexivity |]. split; [by rewrite length_fmap |]. split.
  - intros i t Hi. exists (patched taskId newStatus t).
    rewrite list_lookup_fmap, Hi. split; [reflexivity |].
    assert (Ht : is_record t = true)
      by (eapply (proj1 (Forall_lookup _ l)) in Hrec; eauto).
    destruct t as [| | | | | | m]; try discriminate.
    unfold patched. destruct (has_id taskId (VObj m)).
    + split; [intros k Hk; by apply get_spread_with_ne | apply get_spread_with_eq].
    + done.
  - intros Hnone. apply list_eq. intros i. rewrite list_lookup_fmap.
    destruct (l !! i) as [t |] eqn:Hi; [| reflexivity]. simpl.
    unfold patched.
    by rewrite (proj1 (Forall_lookup _ l) Hnone i t Hi).
Qed.

Lemma handleStatusChange_patches_every_match_witness :
  let l := [obj [("id", VNum 5); ("status", VStr "TO_DO")];
            obj [("id", VNum 7); ("status", VStr "TO_DO")];
            obj [("id", VNum 5); ("title", VStr "twin")]] in
  let st := with_tasks (VArr l) initial_state in
  let E := constant_env (Resolved VNull) true in
  is_primitive (VNum 5) = true ∧
  tasks (app (run (handleStatusChange st (VNum 5) (VStr "DONE")) E (empty_world st)))
  = VArr [obj [("id", VNum 5); ("status", VStr "DONE")];
          obj [("id", VNum 7); ("status", VStr "TO_DO")];
          obj [("id", VNum 5); ("title", VStr "twin"); ("status", VStr "DONE")]] ∧
  ∃ l', tasks (app (run (handleStatusChange st (VNum 5) (VStr "DONE")) E
                        (empty_world st))) = VArr l' ∧ length l' = 3.
Proof.
  intros l st E. split; [reflexivity |]. split; [reflexivity |].
  destruct (handleStatusChange_patches_every_match E (empty_world st) l
              (VNum 5) (VStr "DONE") VNull) as (l' & Htasks & Hlen & _).
  - reflexivity.
  - reflexivity.
  - repeat constructor.
  - reflexivity.
  - exists l'. by split.
Defined.

Lemma map_elems_patched_present taskId newStatus (l : list value) :
  Forall (λ t, Js.nullish t = false) l →
  Js.map_elems
    (λ task, id ← Js.get task "id";
             mret (if Js.strict_eq id taskId
                   then Js.spread_with task "status" newStatus
                   else task)) l
  = Ok (patched taskId newStatus <$> l).
Proof.
  induction 1 as [| t l Ht _ IH]; [reflexivity |].
  cbn [Js.map_elems fmap list_fmap]. rewrite IH.
  unfold patched, has_id. by destruct t.
Qed.

Lemma map_elems_ok_present {B} (f : value → result B) (l : list value) items :
  (∀ x, Js.nullish x = true → f x = Throw TypeError) →
  Js.map_elems f l = Ok items →
  Forall (λ t, Js.nullish t = false) l ∧ length items = length l.
Proof.
  intros Hnull. revert items.
  induction l as [| x l IH]; intros items; cbn [Js.map_elems].
  - intros [= <-]. by split.
  - unfold mbind, mret, result_bind, result_ret.
    destruct (f x) as [y |] eqn:Hfx; [| discriminate].
    destruct (Js.map_elems f l) as [ys |]; [| discriminate].
    intros [= <-]. destruct (IH ys eq_refl) as (Hl & Hlen).
    split; [| cbn [length]; by rewrite Hlen].
    constructor; [| exact Hl].
    destruct (Js.nullish x) eqn:Hx; [| reflexivity].
    rewrite (Hnull x Hx) in Hfx. discriminate.
Qed.

Lemma strict_eq_primitive v : is_primitive v = true → Js.strict_eq v v = true.
Proof.
  destruct v; simpl; intros H; try discriminate; try reflexivity;
    by apply bool_decide_eq_true.
Qed.

(** X4: choosing a status in the select of an item sends the PATCH for the
    id of that item's record and, when it resolves, the record of the item
    itself has the chosen status afterwards (its id being a primitive
    value, possibly a missing one), whatever else is in the collection. *)
Theorem TaskItem_onChange_updates_own_record E w (l : list value) i m
    newValue d :
  tasks (app w) = VArr l →
  Forall (λ t, is_record t = true) l →
  l !! i = Some (VObj m) →
  is_primitive (default VUndefined (m !! "id")) = true →
  respond E (trace w)
          (status_request (default VUndefined (m !! "id")) newValue)
  = Resolved d →
  let w' := run (TaskItem_onChange (app w) (VObj m) newValue) E w in
  trace w' = (trace w ++ [EHttp (status_request (default VUndefined (m !! "id"))
                                                newValue)])%list ∧
  ∃ l' t', tasks (app w') = VArr l' ∧ l' !! i = Some t' ∧
           Js.get t' "status" = Ok newValue ∧
           Js.get t' "id" = Js.get (VObj m) "id".
Proof.
  intros Htasks Hrec Hi Hprim Hresp w'. subst w'.
  assert (Hrun : run (TaskItem_onChange (app w) (VObj m) newValue) E w
                 = run (handleStatusChange (app w) (default VUndefined (m !! "id"))
                                           newValue) E w).
  { unfold run, TaskItem_onChange. cbn [Js.get].
    unfold mbind, prog_bind, lift, detached.
    by destruct (handleStatusChange (app w) _ newValue E w). }
  rewrite Hrun.
  rewrite (handleStatusChange_resolved E w l _ newValue d) by done.
  cbn [app with_app tasks trace log]. split; [reflexivity |].
  exists (patched (default VUndefined (m !! "id")) newValue <$> l),
         (patched (default VUndefined (m !! "id")) newValue (VObj m)).
  split; [reflexivity |]. split; [by rewrite list_lookup_fmap, Hi |].
  unfold patched, has_id. cbn [Js.get]. rewrite (strict_eq_primitive _ Hprim).
  split; [apply get_spread_with_eq | by apply get_spread_with_ne].
Qed.

Lemma TaskItem_onChange_updates_own_record_witness :
  let l := [obj [("id", VNum 5); ("status", VStr "TO_DO")];
            obj [("title", VStr "no id yet")]] in
  let st := with_tasks (VArr l) initial_state in
  let E := constant_env (Resolved VNull) true in
  ∃ l' t', tasks (app (run (TaskItem_onChange st (obj [("title", VStr "no id yet")])
                                               (VStr "DONE")) E (empty_world st)))
           = VArr l' ∧ l' !! 1 = Some t' ∧ Js.get t' "status" = Ok (VStr "DONE").
Proof.
  intros l st E.
  destruct (TaskItem_onChange_updates_own_record E (empty_world st) l 1
              (list_to_map [("title", VStr "no id yet")]) (VStr "DONE") VNull)
    as (_ & l' & t' & H1 & H2 & H3 & _).
  - reflexivity.
  - repeat constructor.
  - reflexivity.
  - reflexivity.
  - reflexivity.
  - exists l', t'. auto.
Defined.

(** ** Create, update, delete: failures *)

Lemma fetchTasks_rejected_run E w e :
  respond E (trace w) list_request = Rejected e →
  run fetchTasks E w
  = log (EConsoleError "Error fetching tasks:" (AxiosError e))
        (log (EHttp list_request) w).
Proof.
  intros Hresp. unfold run, fetchTasks, try_catch.
  unfold mbind. unfold prog_bind, await_axios, console_error.
  fold list_request. by rewrite Hresp.
Qed.

(** X5: when the write request of a save or of a confirmed delete is
    rejected, the handler logs the error and stops: the state (modal
    included) and the storage are as before, and no list request is
    sent. *)
Theorem mutation_write_rejected E w op e :
  goes_ahead E w op = true →
  respond E (trace w ++ prelude op) (write_request (app w) op) = Rejected e →
  let w' := run (perform (app w) op) E w in
  app w' = app w ∧
  local_storage w' = local_storage w ∧
  trace w' = (trace w ++ prelude op
                ++ [EHttp (write_request (app w) op);
                    EConsoleError (match op with
                                   | Save _ => "Error saving task:"
                                   | Delete _ => "Error deleting task:"
                                   end) (AxiosError e)])%list ∧
  EHttp list_request ∉ drop (length (trace w)) (trace w').
Proof.
  intros Hgo Hwrite w'. subst w'.
  destruct op as [taskData | taskId]; cbn [perform write_request prelude] in *.
  - rewrite app_nil_r in Hwrite.
    rewrite (handleSaveTask_rejected E w (app w) taskData e Hwrite).
    cbn [app local_storage trace log]. rewrite <- app_assoc.
    repeat split. rewrite drop_app_length. cbn [app].
    unfold save_request. intros Hin.
    destruct (Js.truthy _);
      repeat (apply elem_of_cons in Hin as [Hin | Hin]; [discriminate Hin |]);
      by apply elem_of_nil in Hin.
  - rewrite (handleDeleteTask_rejected E w taskId e Hgo Hwrite).
    cbn [app local_storage trace log]. rewrite <- !app_assoc.
    repeat split. rewrite drop_app_length. cbn [app]. intros Hin.
    repeat (apply elem_of_cons in Hin as [Hin | Hin]; [discriminate Hin |]).
    by apply elem_of_nil in Hin.
Qed.

Lemma mutation_write_rejected_witness :
  let st := {| tasks := VArr [obj [("id", VNum 1)]]; showModal := true;
               editingTask := obj [("id", VNum 1)]; aiSuggestion := VNull;
               loading := false; user := obj [("username", VStr "ana")] |} in
  let E := constant_env (Rejected (VStr "500")) true in
  app (run (perform st (Save (obj [("title", VStr "t")]))) E (empty_world st)) = st ∧
  app (run (perform st (Delete (VNum 1))) E (empty_world st)) = st.
Proof.
  intros st E. split.
  - exact (proj1 (mutation_write_rejected E (empty_world st) (Save _) (VStr "500")
                    eq_refl eq_refl)).
  - exact (proj1 (mutation_write_rejected E (empty_world st) (Delete _) (VStr "500")
                    eq_refl eq_refl)).
Defined.

(** X6: when the write resolves but the list request that follows is
    rejected, the collection stays the stale one it was (the change made
    on the server is not shown), the failure is only logged, and after a
    save the modal is closed all the same. *)
Theorem mutation_refresh_rejected E w op d e :
  goes_ahead E w op = true →
  respond E (trace w ++ prelude op) (write_request (app w) op) = Resolved d →
  respond E (trace w ++ prelude op ++ [EHttp (write_request (app w) op)])
          list_request = Rejected e →
  let w' := run (perform (app w) op) E w in
  tasks (app w') = tasks (app w) ∧
  app w' = match op with
           | Save _ => closed_modal (app w)
           | Delete _ => app w
           end ∧
  trace w' = (trace w ++ prelude op
                ++ [EHttp (write_request (app w) op); EHttp list_request;
                    EConsoleError "Error fetching tasks:" (AxiosError e)])%list.
Proof.
  intros Hgo Hwrite Hlist w'. subst w'.
  destruct op as [taskData | taskId]; cbn [perform write_request prelude] in *.
  - rewrite app_nil_r in Hwrite.
    rewrite (handleSaveTask_resolved E w (app w) taskData d Hwrite).
    rewrite (fetchTasks_rejected_run _ _ e) by exact Hlist.
    cbn [app local_storage trace log with_app]. by rewrite <- !app_assoc.
  - rewrite (handleDeleteTask_resolved E w taskId d Hgo Hwrite).
    rewrite (fetchTasks_rejected_run _ _ e).
    + cbn [app local_storage trace log with_app]. by rewrite <- !app_assoc.
    + cbn [trace log]. rewrite <- app_assoc. exact Hlist.
Qed.

Lemma mutation_refresh_rejected_witness :
  let st := {| tasks := VArr [obj [("id", VNum 1)]]; showModal := true;
               editingTask := VNull; aiSuggestion := VNull; loading := false;
               user := obj [("username", VStr "ana")] |} in
  let E := {| respond := λ _ r, match req_method r with
                                | GET => Rejected (VStr "timeout")
                                | _ => Resolved VNull
                                end;
              confirm_answer := λ _ _, true |} in
  tasks (app (run (perform st (Delete (VNum 1))) E (empty_world st)))
  = VArr [obj [("id", VNum 1)]] ∧
  showModal (app (run (perform st (Save (obj [("title", VStr "t")]))) E
                      (empty_world st))) = false.
Proof.
  intros st E. split.
  - exact (proj1 (mutation_refresh_rejected E (empty_world st) (Delete _) VNull
                    (VStr "timeout") eq_refl eq_refl eq_refl)).
  - pose proof (proj1 (proj2 (mutation_refresh_rejected E (empty_world st)
                    (Save (obj [("title", VStr "t")])) VNull (VStr "timeout")
                    eq_refl eq_refl eq_refl))) as H.
    cbn beta zeta in H. change (app (empty_world st)) with st in H.
    by rewrite H.
Defined.

(** ** No handler rejects *)

Lemma try_catch_completes (c : prog unit) (h : exn → prog unit) E w :
  (∀ e w0, (h e E w0).1 = Ok ()) → (try_catch c h E w).1 = Ok ().
Proof.
  intros Hh. unfold try_catch.
  destruct (c E w) as [[[] | e] w1]; [reflexivity | apply Hh].
Qed.

(** X7: every handler of [App] completes normally in every environment and
    from every world: a rejected request, a malformed response body or a
    collection that cannot be mapped ends in the handler's own [catch],
    never in an unhandled rejection. *)
Theorem handlers_never_reject ToString E w snap :
  completion fetchTasks E w = Ok () ∧
  completion fetchUserProfile E w = Ok () ∧
  (∀ credentials, completion (handleLogin ToString credentials) E w = Ok ()) ∧
  (∀ taskId newStatus,
     completion (handleStatusChange snap taskId newStatus) E w = Ok ()) ∧
  (∀ taskData, completion (handleSaveTask snap taskData) E w = Ok ()) ∧
  (∀ taskId, completion (handleDeleteTask taskId) E w = Ok ()) ∧
  completion handleAiSuggestion E w = Ok () ∧
  completion handleLogout E w = Ok ().
Proof.
  unfold completion. repeat split; intros.
  - by apply try_catch_completes.
  - by apply try_catch_completes.
  - by apply try_catch_completes.
  - by apply try_catch_completes.
  - by apply try_catch_completes.
  - unfold handleDeleteTask, window_confirm. unfold mbind at 1.
    unfold prog_bind. destruct (confirm_answer E (trace w) _); [| reflexivity].
    by apply try_catch_completes.
  - unfold handleAiSuggestion, setLoading, setAiSuggestion, set_state,
      try_finally, try_catch, console_error, await_axios.
    unfold mbind, prog_bind. by destruct (respond E _ _).
Qed.

(** ** Login *)

Lemma fetchUserProfile_completes E w : (fetchUserProfile E w).1 = Ok ().
Proof. by apply try_catch_completes. Qed.

Lemma fetchUserProfile_resolved E w d :
  respond E (trace w) profile_request = Resolved d →
  run fetchUserProfile E w
  = with_app (λ s, {| tasks := tasks s; showModal := showModal s;
                      editingTask := editingTask s;
                      aiSuggestion := aiSuggestion s; loading := loading s;
                      user := d |})
             (log (EHttp profile_request) w).
Proof.
  intros Hresp. unfold run, fetchUserProfile, try_catch.
  unfold mbind. unfold prog_bind, await_axios, setUser, set_state.
  fold profile_request. by rewrite Hresp.
Qed.

Lemma fetchUserProfile_rejected E w e :
  respond E (trace w) profile_request = Rejected e →
  run fetchUserProfile E w
  = log (EConsoleError "Error fetching user profile:" (AxiosError e))
        (log (EHttp profile_request) w).
Proof.
  intros Hresp. unfold run, fetchUserProfile, try_catch.
  unfold mbind. unfold prog_bind, await_axios, console_error.
  fold profile_request. by rewrite Hresp.
Qed.

Lemma handleLogin_failed ToString E w credentials x :
  login_failure (respond E (trace w) (token_request credentials)) = Some x →
  run (handleLogin ToString credentials) E w
  = log (EAlert "Login failed. Please check your credentials.")
        (log (EConsoleError "Login error:" x)
             (log (EHttp (token_request credentials)) w)).
Proof.
  unfold run, handleLogin, try_catch.
  unfold mbind. unfold prog_bind, await_axios, console_error, alert, lift.
  fold (token_request credentials).
  destruct (respond E (trace w) _) as [d | e]; simpl.
  - destruct d; simpl; intros [= <-]; reflexivity.
  - by intros [= <-].
Qed.

Lemma handleLogin_resolved ToString E w credentials data :
  respond E (trace w) (token_request credentials) = Resolved data →
  Js.nullish data = false →
  run (handleLogin ToString credentials) E w
  = run fetchTasks E
      (run fetchUserProfile E
         (with_storage (<["refreshToken" := ToString (Js.get_opt data "refresh")]>)
            (with_storage (<["accessToken" := ToString (Js.get_opt data "access")]>)
               (log (EHttp (token_request credentials)) w)))).
Proof.
  intros Hresp Hdata.
  assert (Hget : ∀ k, Js.get data k = Ok (Js.get_opt data k))
    by (intros k; unfold Js.get_opt; by destruct data).
  unfold run, handleLogin, try_catch.
  unfold mbind. unfold prog_bind, await_axios, lift, localStorage_setItem.
  fold (token_request credentials). rewrite Hresp, !Hget.
  match goal with |- context [fetchUserProfile E ?w1] =>
    pose proof (fetchUserProfile_completes E w1) as Hp;
    destruct (fetchUserProfile E w1) as [[[] | e1] w2]; [| discriminate Hp]
  end.
  cbn [fst snd].
  pose proof (fetchTasks_completes E w2) as Ht.
  by destruct (fetchTasks E w2) as [[[] | e2] w3]; [| discriminate Ht].
Qed.

(** X8: a login whose token request is rejected, or answered with a
    [null] body, stores no token and changes nothing of the state; it
    logs the error and then shows the alert, and sends no further
    request. *)
Theorem handleLogin_failure_alerts ToString E w credentials x :
  login_failure (respond E (trace w) (token_request credentials)) = Some x →
  let w' := run (handleLogin ToString credentials) E w in
  app w' = app w ∧
  local_storage w' = local_storage w ∧
  trace w' = (trace w ++
                [EHttp (token_request credentials);
                 EConsoleError "Login error:" x;
                 EAlert "Login failed. Please check your credentials."])%list.
Proof.
  intros Hfail w'. subst w'.
  rewrite (handleLogin_failed ToString E w credentials x Hfail).
  cbn [app local_storage trace log]. by rewrite <- !app_assoc.
Qed.

Lemma handleLogin_failure_alerts_witness :
  let E := constant_env (Resolved VNull) true in
  let w := empty_world initial_state in
  let creds := obj [("username", VStr "ana"); ("password", VStr "pw")] in
  login_failure (respond E (trace w) (token_request creds)) = Some TypeError ∧
  local_storage (run (handleLogin (λ _, "x") creds) E w) = ∅.
Proof.
  intros E w creds. split; [reflexivity |].
  exact (proj1 (proj2 (handleLogin_failure_alerts (λ _, "x") E w creds TypeError
                         eq_refl))).
Defined.

(** X9: a login in which the three requests resolve runs them in the order
    token, profile, list; it stores the string conversions of [access] and
    [refresh] under the two keys, sets the user to the profile body and
    the collection to the collection of the list response, and shows no
    alert.  The profile asked for is that of user 1 whatever the
    credentials are. *)
Theorem handleLogin_sequence ToString E w credentials data profile r :
  respond E (trace w) (token_request credentials) = Resolved data →
  Js.nullish data = false →
  respond E (trace w ++ [EHttp (token_request credentials)]) profile_request
  = Resolved profile →
  respond E (trace w ++ [EHttp (token_request credentials); EHttp profile_request])
          list_request = Resolved (body_of r) →
  let w' := run (handleLogin ToString credentials) E w in
  user (app w') = profile ∧
  tasks (app w') = VArr (collection_of r) ∧
  local_storage w'
  = <["refreshToken" := ToString (Js.get_opt data "refresh")]>
      (<["accessToken" := ToString (Js.get_opt data "access")]> (local_storage w)) ∧
  trace w' = (trace w ++ [EHttp (token_request credentials);
                          EHttp (Request GET [Lit "/users/users/1/"] VUndefined);
                          EHttp list_request])%list.
Proof.
  intros Htoken Hdata Hprofile Hlist w'. subst w'.
  rewrite (handleLogin_resolved ToString E w credentials data Htoken Hdata).
  rewrite (fetchUserProfile_resolved _ _ profile) by exact Hprofile.
  destruct (get_not_nullish (body_of r) "results") as [results Hget];
    [by destruct r |].
  unfold run. erewrite fetchTasks_resolved; [| | exact Hget].
  - cbn. rewrite (refreshed_collection r results Hget).
    by rewrite <- !app_assoc.
  - cbn. rewrite <- app_assoc. exact Hlist.
Qed.

Lemma handleLogin_sequence_witness :
  let E := {| respond := λ tr _, match length tr with
                                 | 0 => Resolved (obj [("access", VStr "a1");
                                                       ("refresh", VStr "r1")])
                                 | 1 => Resolved (obj [("username", VStr "ana")])
                                 | _ => Resolved (VArr [obj [("id", VNum 1)]])
                                 end;
              confirm_answer := λ _ _, true |} in
  let ToString := λ v, match v with VStr s => s | _ => "?" end in
  let w' := run (handleLogin ToString
                   (obj [("username", VStr "bob"); ("password", VStr "pw")]))
                E (empty_world initial_state) in
  user (app w') = obj [("username", VStr "ana")] ∧
  local_storage w' !! "accessToken" = Some "a1".
Proof.
  intros E ToString w'.
  destruct (handleLogin_sequence ToString E (empty_world initial_state)
              (obj [("username", VStr "bob"); ("password", VStr "pw")])
              (obj [("access", VStr "a1"); ("refresh", VStr "r1")])
              (obj [("username", VStr "ana")])
              (BareList [obj [("id", VNum 1)]]))
    as (Huser & _ & Hstore & _); try reflexivity.
  split; [exact Huser |].
  fold w' in Hstore. rewrite Hstore. reflexivity.
Defined.

(** X10: when the token request resolves and the profile request is
    rejected, the tokens are stored all the same, the user stays what it
    was (a logged-out screen stays the login view) and no alert is shown:
    the failure is only logged, and the list request still follows. *)
Theorem handleLogin_profile_failure_silent ToString E w credentials data e :
  respond E (trace w) (token_request credentials) = Resolved data →
  Js.nullish data = false →
  respond E (trace w ++ [EHttp (token_request credentials)]) profile_request
  = Rejected e →
  let w' := run (handleLogin ToString credentials) E w in
  user (app w') = user (app w) ∧
  local_storage w' !! "accessToken" = Some (ToString (Js.get_opt data "access")) ∧
  local_storage w' !! "refreshToken" = Some (ToString (Js.get_opt data "refresh")) ∧
  (∃ rest,
     trace w' = (trace w ++
                   [EHttp (token_request credentials);
                    EHttp profile_request;
                    EConsoleError "Error fetching user profile:" (AxiosError e);
                    EHttp list_request] ++ rest)%list ∧
     Forall (λ ev, is_alert ev = false) rest).
Proof.
  intros Htoken Hdata Hprofile w'. subst w'.
  rewrite (handleLogin_resolved ToString E w credentials data Htoken Hdata).
  rewrite (fetchUserProfile_rejected _ _ e) by exact Hprofile.
  match goal with |- context [run fetchTasks E ?w1] =>
    destruct (fetchTasks_frame E w1) as (_ & _ & _ & _ & Huser & Hstore);
    set (w2 := w1) in *
  end.
  split; [by rewrite Huser |].
  split.
  { rewrite Hstore. subst w2. cbn [local_storage log with_storage].
    rewrite lookup_insert_ne by done. apply lookup_insert_eq. }
  split.
  { rewrite Hstore. subst w2. cbn [local_storage log with_storage].
    apply lookup_insert_eq. }
  unfold run, fetchTasks, try_catch. unfold mbind.
  unfold prog_bind, await_axios, lift, console_error, setTasks, set_state.
  fold list_request.
  destruct (respond E (trace w2) list_request) as [d | e'].
  - destruct (Js.get d "results"); subst w2;
      cbn [snd trace log with_app with_storage]; rewrite <- !app_assoc;
      eexists; (split; [reflexivity |]); repeat constructor.
  - subst w2. cbn [snd trace log with_app with_storage]. rewrite <- !app_assoc.
    eexists; (split; [reflexivity |]); repeat constructor.
Qed.

Lemma handleLogin_profile_failure_silent_witness :
  let E := {| respond := λ _ r, match req_method r with
                                | POST => Resolved (obj [("access", VStr "a1")])
                                | _ => Rejected (VStr "401")
                                end;
              confirm_answer := λ _ _, true |} in
  let w' := run (handleLogin (λ v, match v with VStr s => s | _ => "undefined" end)
                             (obj [("username", VStr "ana")]))
                E (empty_world initial_state) in
  user (app w') = VNull ∧ render (app w') = Ok LoginView ∧
  local_storage w' !! "refreshToken" = Some "undefined".
Proof.
  intros E w'. split; [| split; reflexivity].
  exact (proj1 (handleLogin_profile_failure_silent _ E (empty_world initial_state)
                  (obj [("username", VStr "ana")]) (obj [("access", VStr "a1")])
                  (VStr "401") eq_refl eq_refl eq_refl)).
Defined.

(** ** The bearer token *)

Lemma fetchUserProfile_keeps_storage : keeps local_storage fetchUserProfile.
Proof. unfold fetchUserProfile. keeps_structure. Qed.

(** X11: after a logout no request carries credentials: whatever the
    world was, the interceptor leaves the headers of a request as they
    are, adding no [Authorization]. *)
Theorem logout_then_no_bearer E w (headers : gmap string string) :
  interceptor (local_storage (run handleLogout E w)) headers = headers.
Proof.
  unfold interceptor, run, handleLogout. unfold mbind.
  unfold prog_bind, localStorage_removeItem, setUser, setTasks, set_state.
  cbn [snd local_storage with_app with_storage].
  rewrite lookup_delete_ne by done. by rewrite lookup_delete_eq.
Qed.

(** X12: after a login whose token request resolved with a body, the
    interceptor attaches ["Bearer " ++ t] to every request, [t] being the
    string conversion of the [access] field, whatever became of the
    profile and list requests; unless [t] is the empty string, in which
    case nothing is attached.  The other headers are untouched. *)
Theorem login_then_bearer ToString E w credentials data
    (headers : gmap string string) :
  respond E (trace w) (token_request credentials) = Resolved data →
  Js.nullish data = false →
  let t := ToString (Js.get_opt data "access") in
  let sent := interceptor
                (local_storage (run (handleLogin ToString credentials) E w))
                headers in
  sent !! "Authorization"
  = (if String.eqb t "" then headers !! "Authorization" else Some ("Bearer " ++ t)) ∧
  ∀ k, k ≠ "Authorization" → sent !! k = headers !! k.
Proof.
  intros Htoken Hdata t sent.
  assert (Hstored : local_storage (run (handleLogin ToString credentials) E w)
                    !! "accessToken" = Some t).
  { rewrite (handleLogin_resolved ToString E w credentials data Htoken Hdata).
    unfold run. rewrite fetchTasks_keeps_storage, fetchUserProfile_keeps_storage.
    cbn [local_storage with_storage log].
    rewrite lookup_insert_ne by done. apply lookup_insert_eq. }
  subst sent. unfold interceptor. rewrite Hstored. cbn [Js.truthy].
  destruct (String.eqb t ""); cbn [negb].
  - done.
  - split; [apply lookup_insert_eq |]. intros k Hk. by rewrite lookup_insert_ne.
Qed.

Lemma login_then_bearer_witness :
  let E := constant_env (Resolved (obj [("access", VStr "a1")])) true in
  let ToString := λ v, match v with VStr s => s | _ => "undefined" end in
  interceptor
    (local_storage (run (handleLogin ToString (obj [("username", VStr "ana")]))
                        E (empty_world initial_state)))
    {["Accept" := "application/json"]} !! "Authorization"
  = Some "Bearer a1".
Proof.
  intros E ToString.
  exact (proj1 (login_then_bearer ToString E (empty_world initial_state)
                  (obj [("username", VStr "ana")]) (obj [("access", VStr "a1")])
                  {["Accept" := "application/json"]} eq_refl eq_refl)).
Defined.

(** ** Start-up *)

Lemma fetchTasks_split E w :
  fetchTasks E w
  = (o ← issue GET [Lit "/tasks/tasks/"] VUndefined; fetchTasks_resumed o) E w.
Proof.
  unfold fetchTasks, fetchTasks_resumed, try_catch.
  unfold mbind. unfold prog_bind, await_axios, issue, settle.
  by destruct (respond E (trace w) _).
Qed.

Lemma fetchUserProfile_split E w :
  fetchUserProfile E w
  = (o ← issue GET [Lit "/users/users/1/"] VUndefined;
     fetchUserProfile_resumed o) E w.
Proof.
  unfold fetchUserProfile, fetchUserProfile_resumed, try_catch.
  unfold mbind. unfold prog_bind, await_axios, issue, settle.
  by destruct (respond E (trace w) _).
Qed.

(** X13: the two requests of the mount effect are in flight together, and
    the state and the storage it leaves do not depend on which response
    arrives first; only the order of the logged errors can differ. *)
Theorem mount_effect_order_irrelevant E w :
  app (run (mount_effect true) E w) = app (run (mount_effect false) E w) ∧
  local_storage (run (mount_effect true) E w)
  = local_storage (run (mount_effect false) E w) ∧
  requests (trace (run (mount_effect true) E w))
  = requests (trace (run (mount_effect false) E w)).
Proof.
  unfold run, mount_effect, fetchTasks_resumed, fetchUserProfile_resumed,
    try_catch.
  unfold mbind. unfold prog_bind, issue, settle, localStorage_getItem, lift,
    setTasks, setUser, set_state, console_error.
  cbn [local_storage log trace].
  destruct (local_storage w !! "accessToken") as [token |]; [| done].
  destruct (Js.truthy (VStr token)); [| done].
  destruct (respond E (trace w) _) as [d1 | e1];
    destruct (respond E _ (Request GET [Lit "/users/users/1/"] _)) as [d2 | e2];
    try destruct (Js.get d1 "results");
    cbn [fst snd app local_storage trace log with_app tasks showModal
         editingTask aiSuggestion loading user];
    unfold requests; rewrite ?List.filter_app; done.
Qed.

(** X14: on mount the list request is always sent; the profile request is
    sent as well exactly when [localStorage] holds a non-empty access
    token, and without one the user is left as it is: the screen stays the
    login view although the tasks have been fetched. *)
Theorem mount_effect_requests E w tasks_first :
  let w' := run (mount_effect tasks_first) E w in
  let usable := match local_storage w !! "accessToken" with
                | Some token => negb (String.eqb token "")
                | None => false
                end in
  requests (drop (length (trace w)) (trace w'))
  = (if usable then [EHttp list_request; EHttp profile_request]
     else [EHttp list_request]) ∧
  (usable = false → user (app w') = user (app w)) ∧
  local_storage w' = local_storage w.
Proof.
  cbn zeta.
  unfold run, mount_effect, fetchTasks_resumed, fetchUserProfile_resumed,
    try_catch.
  unfold mbind. unfold prog_bind, issue, settle, localStorage_getItem, lift,
    setTasks, setUser, set_state, console_error.
  cbn [local_storage log trace]. fold list_request profile_request.
  destruct (local_storage w !! "accessToken") as [token |]; cbn [Js.truthy].
  - destruct (negb (String.eqb token ""));
      destruct tasks_first;
      destruct (respond E (trace w) list_request) as [d1 | e1];
      try destruct (respond E _ profile_request) as [d2 | e2];
      try destruct (Js.get d1 "results");
      cbn [fst snd app local_storage trace log with_app user];
      rewrite <- ?app_assoc, drop_app_length; done.
  - destruct (respond E (trace w) list_request) as [d1 | e1];
      try destruct (Js.get d1 "results");
      cbn [fst snd app local_storage trace log with_app user];
      rewrite <- ?app_assoc, drop_app_length; done.
Qed.

Lemma mount_effect_requests_witness :
  let w := {| app := initial_state; local_storage := {["accessToken" := ""]};
              trace := [] |} in
  let w' := run (mount_effect true) (constant_env (Resolved (VArr [])) true) w in
  requests (trace w') = [EHttp list_request] ∧ user (app w') = VNull.
Proof.
  intros w w'.
  destruct (mount_effect_requests (constant_env (Resolved (VArr [])) true) w true)
    as (Hreq & Huser & _).
  split; [exact Hreq | exact (Huser eq_refl)].
Defined.

(** ** What the actions leave alone *)

Lemma run_detached (c : prog unit) E w : run (detached c) E w = run c E w.
Proof. unfold run, detached. by destruct (c E w). Qed.

Lemma handler_keeps_storage ToString a snap :
  touches_session a = false → keeps local_storage (handler ToString a snap).
Proof.
  destruct a; try discriminate; intros _; cbn [handler];
    unfold mount_effect, fetchTasks_resumed, fetchUserProfile_resumed,
      TaskItem_onChange, handleStatusChange, handleSaveTask, handleDeleteTask,
      handleAiSuggestion, fetchTasks, dismiss, onNewTask, onEdit, onClose;
    keeps_structure.
Qed.

(** X15: the tokens in [localStorage] are written by login and logout
    only: every other action (start-up, status change, save, delete, plan
    request, the modal and panel buttons) leaves the storage exactly as it
    was, however its requests end. *)
Theorem storage_written_by_session_only ToString E w a :
  touches_session a = false →
  local_storage (step ToString E w a) = local_storage w.
Proof. intros Ha. unfold step, run. by apply handler_keeps_storage. Qed.

Lemma storage_written_by_session_only_witness :
  let w := {| app := initial_state;
              local_storage := {["accessToken" := "a1"]}; trace := [] |} in
  local_storage (step (λ _, "x") (constant_env (Rejected VNull) true) w
                      (ADelete (VNum 1)))
  = {["accessToken" := "a1"]}.
Proof.
  intros w.
  exact (storage_written_by_session_only (λ _, "x")
           (constant_env (Rejected VNull) true) w (ADelete (VNum 1)) eq_refl).
Defined.

(** ** No delete without an accepted prompt *)

Lemma deletes_confirmed_app E tr new :
  deletes_confirmed E tr →
  Forall (λ e, is_delete e = false) new →
  deletes_confirmed E (tr ++ new).
Proof.
  intros Htr Hnew pre r post Heq Hdel.
  apply app_eq_inv in Heq as [(k & Hpre & Hk) | (k & Hpre & Hk)].
  - destruct k as [| x k].
    + simpl in Hk. subst new. apply Forall_cons_1 in Hnew as [Hr _].
      simpl in Hr. by rewrite Hdel in Hr.
    + injection Hk as <- Hk. eapply Htr; [| exact Hdel].
      rewrite Hpre. reflexivity.
  - subst new. apply Forall_app in Hnew as [_ Hnew].
    apply Forall_cons_1 in Hnew as [Hr _]. simpl in Hr. by rewrite Hdel in Hr.
Qed.

Lemma deletes_confirmed_accepted E tr r0 :
  deletes_confirmed E tr →
  confirm_answer E tr delete_prompt = true →
  deletes_confirmed E (tr ++ [EConfirm delete_prompt; EHttp r0]).
Proof.
  intros Htr Hyes pre r post Heq Hdel.
  apply app_eq_inv in Heq as [(k & Hpre & Hk) | (k & Hpre & Hk)].
  - destruct k as [| x k]; [discriminate Hk |].
    injection Hk as <- Hk. eapply Htr; [| exact Hdel].
    rewrite Hpre. reflexivity.
  - destruct k as [| x [| y k]].
    + discriminate Hk.
    + injection Hk as <- _ _. exists tr. by rewrite Hpre.
    + injection Hk as _ _ Hk. by destruct k.
Qed.

Lemma handler_no_delete ToString a snap :
  (∀ taskId, a ≠ ADelete taskId) →
  appends (λ e, is_delete e = false) (handler ToString a snap).
Proof.
  destruct a; intros Ha; try (by destruct (Ha taskId)); cbn [handler];
    unfold mount_effect, fetchTasks_resumed, fetchUserProfile_resumed,
      LoginForm_handleSubmit, handleLogin, fetchUserProfile, handleLogout,
      TaskItem_onChange, handleStatusChange, handleSaveTask,
      handleAiSuggestion, fetchTasks, dismiss, onNewTask, onEdit, onClose;
    appends_structure.
Qed.

Lemma step_deletes_confirmed ToString E w a :
  deletes_confirmed E (trace w) →
  deletes_confirmed E (trace (step ToString E w a)).
Proof.
  intros Htr. unfold step.
  destruct a;
    try (match goal with |- context [handler ?T ?a ?s] =>
           destruct (handler_no_delete T a s ltac:(done) E w) as (new & Hnew & HP)
         end; unfold run; rewrite Hnew; by apply deletes_confirmed_app).
  cbn [handler]. rewrite run_detached.
  destruct (confirm_answer E (trace w) delete_prompt) eqn:Hanswer.
  - destruct (respond E (trace w ++ [EConfirm delete_prompt])
                      (delete_request taskId)) as [d | e] eqn:Hresp.
    + rewrite (handleDeleteTask_resolved E w taskId d Hanswer Hresp).
      destruct (fetchTasks_no_delete E
                  (log (EHttp (delete_request taskId))
                       (log (EConfirm delete_prompt) w))) as (new & Hnew & HP).
      unfold run. rewrite Hnew. cbn [trace log].
      rewrite <- (app_assoc (trace w) [EConfirm delete_prompt]).
      apply deletes_confirmed_app; [| exact HP].
      by apply deletes_confirmed_accepted.
    + rewrite (handleDeleteTask_rejected E w taskId e Hanswer Hresp).
      cbn [trace log].
      rewrite <- (app_assoc (trace w) [EConfirm delete_prompt]).
      apply deletes_confirmed_app; [| by repeat constructor].
      by apply deletes_confirmed_accepted.
  - rewrite (handleDeleteTask_declined E w taskId Hanswer). cbn [trace log].
    apply deletes_confirmed_app; [exact Htr | by repeat constructor].
Qed.

(** X16: in every run of the application, whatever the actions and the
    answers of the server, each DELETE request of the log comes
    immediately after a confirmation prompt, and that prompt was
    accepted. *)
Theorem deletes_always_confirmed ToString E ls acts :
  deletes_confirmed E (trace (steps ToString E (mounted ls) acts)).
Proof.
  unfold steps.
  assert (Hgen : ∀ w, deletes_confirmed E (trace w) →
                      deletes_confirmed E (trace (foldl (step ToString E) w acts))).
  { induction acts as [| a acts IH]; intros w Hw; [exact Hw |].
    cbn [foldl]. apply IH. by apply step_deletes_confirmed. }
  apply Hgen. intros pre r post Heq. by destruct pre.
Qed.

(** ** What holds between two actions *)

Section Preserves.
Context (I : world → Prop).

Lemma preserves_ret {A} (a : A) : preserves I (mret a : prog A).
Proof. intros E w Hw. exact Hw. Qed.

Lemma preserves_bind {A C} (c : prog A) (k : A → prog C) :
  preserves I c → (∀ a, preserves I (k a)) → preserves I (c ≫= k).
Proof.
  intros Hc Hk E w Hw. unfold mbind, prog_bind.
  specialize (Hc E w Hw). destruct (c E w) as [[a | e] w1]; [| exact Hc].
  by apply Hk.
Qed.

Lemma preserves_lift_bind {A C} (r : result A) (k : A → prog C) :
  (∀ a, r = Ok a → preserves I (k a)) → preserves I (lift r ≫= k).
Proof.
  intros Hk E w Hw. unfold mbind, prog_bind, lift.
  destruct r as [a | e]; [| exact Hw]. by apply (Hk a).
Qed.

Lemma preserves_try_catch {A} (c : prog A) (h : exn → prog A) :
  preserves I c → (∀ e, preserves I (h e)) → preserves I (try_catch c h).
Proof.
  intros Hc Hh E w Hw. unfold try_catch.
  specialize (Hc E w Hw). destruct (c E w) as [[a | e] w1]; [exact Hc |].
  by apply Hh.
Qed.

Lemma preserves_try_finally {A} (c : prog A) (fin : prog unit) :
  preserves I c → preserves I fin → preserves I (try_finally c fin).
Proof.
  intros Hc Hfin E w Hw. unfold try_finally.
  specialize (Hc E w Hw). destruct (c E w) as [r w1].
  specialize (Hfin E w1 Hc). by destruct (fin E w1) as [[[] | e] w2].
Qed.

Lemma preserves_detached (c : prog unit) :
  preserves I c → preserves I (detached c).
Proof.
  intros Hc E w Hw. unfold detached. specialize (Hc E w Hw).
  by destruct (c E w).
Qed.
End Preserves.

Lemma or_not_nullish data k results :
  Js.get data k = Ok results → Js.nullish (Js.or results data) = false.
Proof.
  intros Hget. unfold Js.or. destruct (Js.truthy results) eqn:Htruthy.
  - by destruct results.
  - by destruct data.
Qed.

Lemma array_map_not_nullish f v v' :
  Js.array_map f v = Ok v' → Js.nullish v' = false.
Proof.
  unfold Js.array_map. destruct v; try discriminate.
  cbn [Js.elements]. unfold mbind, mret, result_bind, result_ret.
  destruct (Js.map_elems f l); [| discriminate]. by intros [= <-].
Qed.

Ltac preserves_tasks :=
  repeat first
    [ apply preserves_lift_bind; intros ? ?
    | apply preserves_bind; [| intros ?]
    | apply preserves_try_catch; [| intros ?]
    | apply preserves_try_finally
    | apply preserves_detached
    | apply preserves_ret
    | match goal with |- preserves _ (if ?b then _ else _) => destruct b end
    | match goal with
      | H : Js.get _ _ = Ok ?r |- preserves _ (setTasks (Js.or ?r _)) =>
          intros ? ? _; exact (or_not_nullish _ _ _ H)
      | H : Js.array_map _ _ = Ok ?v |- preserves _ (setTasks ?v) =>
          intros ? ? _; exact (array_map_not_nullish _ _ _ H)
      | |- preserves _ (setTasks (VArr _)) => intros ? ? _; reflexivity
      end
    | (intros ? ? ?; unfold tasks_present in *;
       unfold await_axios, issue, settle, window_confirm, console_error, alert,
         localStorage_getItem, localStorage_setItem, localStorage_removeItem,
         setShowModal, setEditingTask, setAiSuggestion, setLoading, setUser,
         set_state, lift;
       repeat case_match; assumption) ].

Lemma handler_preserves_tasks ToString a snap :
  preserves tasks_present (handler ToString a snap).
Proof.
  destruct a; cbn [handler];
    unfold mount_effect, fetchTasks_resumed, fetchUserProfile_resumed,
      LoginForm_handleSubmit, handleLogin, fetchUserProfile, handleLogout,
      TaskItem_onChange, handleStatusChange, handleSaveTask, handleDeleteTask,
      handleAiSuggestion, fetchTasks, dismiss, onNewTask, onEdit, onClose;
    preserves_tasks.
Qed.

Lemma handler_keeps_idle ToString a snap :
  match a with
  | ASave _ | APlan | ANewTask | AEdit _ | AClose => True
  | _ => keeps (λ w, (loading (app w), showModal (app w), editingTask (app w)))
               (handler ToString a snap)
  end.
Proof.
  destruct a; try exact Logic.I; cbn [handler];
    unfold mount_effect, fetchTasks_resumed, fetchUserProfile_resumed,
      LoginForm_handleSubmit, handleLogin, fetchUserProfile, handleLogout,
      TaskItem_onChange, handleStatusChange, handleDeleteTask, fetchTasks,
      dismiss;
    keeps_structure.
Qed.

Lemma handleAiSuggestion_idle E w :
  let w' := run handleAiSuggestion E w in
  loading (app w') = false ∧
  showModal (app w') = showModal (app w) ∧
  editingTask (app w') = editingTask (app w).
Proof.
  unfold run, handleAiSuggestion, try_finally, try_catch.
  unfold mbind. unfold prog_bind, await_axios, setLoading, setAiSuggestion,
    console_error, set_state.
  by destruct (respond E _ _).
Qed.

Lemma handleSaveTask_idle E w snap taskData :
  let w' := run (handleSaveTask snap taskData) E w in
  loading (app w') = loading (app w) ∧
  ((showModal (app w) = false → editingTask (app w) = VNull) →
   showModal (app w') = false → editingTask (app w') = VNull).
Proof.
  cbn zeta.
  destruct (respond E (trace w) (save_request snap taskData)) as [d | e] eqn:Hresp.
  - rewrite (handleSaveTask_resolved E w snap taskData d Hresp).
    match goal with |- context [run fetchTasks E ?w1] =>
      destruct (fetchTasks_frame E w1) as (Hshow & Hedit & _ & Hload & _)
    end.
    rewrite Hload, Hedit. by split.
  - rewrite (handleSaveTask_rejected E w snap taskData e Hresp). by split.
Qed.

Lemma keeps_idle_run (c : prog unit) E w :
  keeps (λ w, (loading (app w), showModal (app w), editingTask (app w))) c →
  loading (app (run c E w)) = loading (app w) ∧
  showModal (app (run c E w)) = showModal (app w) ∧
  editingTask (app (run c E w)) = editingTask (app w).
Proof. intros H. specialize (H E w). simpl in H. unfold run. by inversion H. Qed.

Lemma step_quiescent ToString E w a :
  quiescent (app w) → quiescent (app (step ToString E w a)).
Proof.
  intros (Hload & Hmodal & Htasks). unfold quiescent, step.
  split; [| split];
    [| | exact (handler_preserves_tasks ToString a (app w) E w Htasks)].
  - pose proof (handler_keeps_idle ToString a (app w)) as Hidle.
    destruct a;
      try (destruct (keeps_idle_run _ E w Hidle) as (Hl & _ & _); by rewrite Hl);
      cbn [handler]; rewrite ?run_detached.
    + by rewrite (proj1 (handleSaveTask_idle E w _ _)).
    + apply handleAiSuggestion_idle.
    + exact Hload.
    + exact Hload.
    + exact Hload.
  - pose proof (handler_keeps_idle ToString a (app w)) as Hidle.
    destruct a;
      try (destruct (keeps_idle_run _ E w Hidle) as (_ & Hs & He);
           by rewrite Hs, He);
      cbn [handler]; rewrite ?run_detached.
    + by apply handleSaveTask_idle.
    + destruct (handleAiSuggestion_idle E w) as (_ & Hs & He).
      by rewrite Hs, He.
    + discriminate.
    + discriminate.
    + reflexivity.
Qed.

(** X17: between two actions, in every run from the freshly mounted
    component: the plan button is not left in its loading state, a closed
    modal holds no task to edit (so "+ New Task" opens an empty form), and
    the collection is never [null] or [undefined]. *)
Theorem runs_stay_quiescent ToString E ls acts :
  quiescent (app (steps ToString E (mounted ls) acts)).
Proof.
  unfold steps.
  assert (Hgen : ∀ w, quiescent (app w) →
                      quiescent (app (foldl (step ToString E) w acts))).
  { induction acts as [| a acts IH]; intros w Hw; [exact Hw |].
    cbn [foldl]. apply IH. by apply step_quiescent. }
  apply Hgen. by repeat split.
Qed.

(** ** What is on the screen *)

Lemma render_logged_in st :
  Js.truthy (user st) = true →
  render st = (list ← render_tasks (tasks st); mret (AppView (main_view st list))).
Proof.
  intros Huser. unfold render, render_tasks, main_view. rewrite Huser.
  cbn [negb]. rewrite (get_truthy _ "username" Huser).
  destruct (Js.truthy (aiSuggestion st)) eqn:Hai.
  - rewrite (get_truthy _ "plan" Hai), (get_truthy _ "estimated_hours" Hai).
    unfold mbind, mret, result_bind, result_ret.
    destruct (Js.get (tasks st) "length") as [len |]; [| reflexivity].
    destruct (Js.strict_eq len (VNum 0)); [reflexivity |].
    destruct (Js.elements (tasks st)) as [l |]; [| reflexivity].
    by destruct (Js.map_elems _ l).
  - unfold mbind, mret, result_bind, result_ret.
    destruct (Js.get (tasks st) "length") as [len |]; [| reflexivity].
    destruct (Js.strict_eq len (VNum 0)); [reflexivity |].
    destruct (Js.elements (tasks st)) as [l |]; [| reflexivity].
    by destruct (Js.map_elems _ l).
Qed.

Lemma render_main st v :
  render st = Ok (AppView v) →
  Js.truthy (user st) = true ∧
  ∃ list, render_tasks (tasks st) = Ok list ∧ v = main_view st list.
Proof.
  intros Hrender. destruct (Js.truthy (user st)) eqn:Huser.
  - split; [reflexivity |]. rewrite (render_logged_in st Huser) in Hrender.
    unfold mbind, mret, result_bind, result_ret in Hrender.
    destruct (render_tasks (tasks st)) as [list |]; [| discriminate].
    exists list. split; [reflexivity |]. by injection Hrender as <-.
  - unfold render in Hrender. rewrite Huser in Hrender. discriminate.
Qed.

Lemma render_tasks_list v items :
  render_tasks v = Ok (TasksList items) →
  ∃ l, v = VArr l ∧
       Forall (λ t, Js.nullish t = false) l ∧ length items = length l.
Proof.
  unfold render_tasks. unfold mbind at 1. unfold result_bind at 1.
  destruct (Js.get v "length") as [len |]; [| discriminate].
  destruct (Js.strict_eq len (VNum 0)); [discriminate |].
  destruct v as [| | | | | l |]; try discriminate.
  cbn [Js.elements]. unfold mbind at 1. unfold result_bind at 1.
  unfold mbind at 1. unfold result_bind at 1.
  destruct (Js.map_elems _ l) as [items' |] eqn:Hitems; [| discriminate].
  intros [= <-]. exists l. split; [reflexivity |].
  eapply map_elems_ok_present; [| exact Hitems].
  intros x Hx. by destruct x.
Qed.

(** X3: a status change started from a task item on the screen never ends
    in the handler's catch when its PATCH resolves.  The render that made
    the item mapped the same collection, so it is an array with no [null]
    or [undefined] element: the handler maps it too, stores a collection
    of the same length, and logs nothing but the request. *)
Theorem handleStatusChange_from_rendered_item E w v items taskId newStatus d :
  render (app w) = Ok (AppView v) →
  tasks_view v = TasksList items →
  respond E (trace w) (status_request taskId newStatus) = Resolved d →
  let w' := run (handleStatusChange (app w) taskId newStatus) E w in
  ∃ l l',
    tasks (app w) = VArr l ∧
    Forall (λ t, Js.nullish t = false) l ∧
    length items = length l ∧
    tasks (app w') = VArr l' ∧
    length l' = length l ∧
    trace w' = (trace w ++ [EHttp (status_request taskId newStatus)])%list.
Proof.
  intros Hrender Hview Hresp w'. subst w'.
  destruct (render_main _ _ Hrender) as (_ & list & Hlist & ->).
  cbn [tasks_view main_view] in Hview. subst list.
  destruct (render_tasks_list _ _ Hlist) as (l & Htasks & Hpresent & Hlen).
  exists l, (patched taskId newStatus <$> l).
  pose proof (map_elems_patched_present taskId newStatus l Hpresent) as Hmap.
  assert (Hrun : run (handleStatusChange (app w) taskId newStatus) E w
                 = with_app (with_tasks (VArr (patched taskId newStatus <$> l)))
                            (log (EHttp (status_request taskId newStatus)) w)).
  { unfold run, handleStatusChange, try_catch, Js.array_map.
    unfold mbind in *. unfold prog_bind, await_axios, lift.
    fold (status_request taskId newStatus). rewrite Hresp, Htasks.
    cbn [Js.elements result_bind]. rewrite Hmap. reflexivity. }
  rewrite Hrun. cbn [app with_app with_tasks tasks trace log].
  by rewrite length_fmap.
Qed.

Lemma handleStatusChange_from_rendered_item_witness :
  let st := {| tasks := VArr [obj [("id", VNum 5); ("status", VStr "TO_DO")];
                              VStr "stray"];
               showModal := false; editingTask := VNull; aiSuggestion := VNull;
               loading := false; user := obj [("username", VStr "ana")] |} in
  let E := constant_env (Resolved VNull) true in
  let w' := run (handleStatusChange st (VNum 5) (VStr "DONE")) E (empty_world st) in
  (∃ v items, render st = Ok (AppView v) ∧ tasks_view v = TasksList items) ∧
  trace w' = [EHttp (status_request (VNum 5) (VStr "DONE"))] ∧
  tasks (app w') = VArr [obj [("id", VNum 5); ("status", VStr "DONE")];
                         VStr "stray"].
Proof.
  intros st E w'.
  assert (Hrender : ∃ v items, render st = Ok (AppView v) ∧
                               tasks_view v = TasksList items).
  { eexists. eexists. split; [vm_compute; reflexivity | reflexivity]. }
  split; [exact Hrender |].
  destruct Hrender as (v & items & Hv & Hitems).
  destruct (handleStatusChange_from_rendered_item E (empty_world st) v items
              (VNum 5) (VStr "DONE") VNull Hv Hitems eq_refl)
    as (l & l' & _ & _ & _ & _ & _ & Htrace).
  split; [exact Htrace | reflexivity].
Defined.

(** X18: the login view is rendered exactly when the user is falsy; with a
    truthy user the render is the main view or fails, never the login
    form. *)
Theorem render_login_iff_no_user st :
  render st = Ok LoginView ↔ Js.truthy (user st) = false.
Proof.
  split.
  - intros Hrender. destruct (Js.truthy (user st)) eqn:Huser; [| reflexivity].
    rewrite (render_logged_in st Huser) in Hrender.
    unfold mbind, mret, result_bind, result_ret in Hrender.
    destruct (render_tasks (tasks st)); discriminate.
  - intros Huser. unfold render. by rewrite Huser.
Qed.

Lemma getStatusInfo_cases statusValue :
  getStatusInfo statusValue
  = Ok (if Js.strict_eq (VStr "TO_DO") statusValue then Js.at_index statusOptions 0
        else if Js.strict_eq (VStr "IN_PROGRESS") statusValue
             then Js.at_index statusOptions 1
             else if Js.strict_eq (VStr "DONE") statusValue
                  then Js.at_index statusOptions 2
                  else Js.at_index statusOptions 0).
Proof.
  unfold getStatusInfo, statusOptions, Js.array_find.
  cbn [foldr]. unfold mbind, mret, result_bind, result_ret.
  change (Js.get (obj [("value", VStr "TO_DO"); ("label", VStr "To Do");
                       ("color", VStr "#ffbe0b")]) "value")
    with (Ok (VStr "TO_DO")).
  change (Js.get (obj [("value", VStr "IN_PROGRESS"); ("label", VStr "In Progress");
                       ("color", VStr "#3a86ff")]) "value")
    with (Ok (VStr "IN_PROGRESS")).
  change (Js.get (obj [("value", VStr "DONE"); ("label", VStr "Done");
                       ("color", VStr "#06d6a0")]) "value")
    with (Ok (VStr "DONE")).
  cbv beta iota.
  destruct (Js.strict_eq (VStr "TO_DO") statusValue); [reflexivity |].
  destruct (Js.strict_eq (VStr "IN_PROGRESS") statusValue); [reflexivity |].
  destruct (Js.strict_eq (VStr "DONE") statusValue); reflexivity.
Qed.

Lemma strict_eq_str_self x : Js.strict_eq (VStr x) (VStr x) = true.
Proof. simpl. by apply bool_decide_eq_true. Qed.

(** X19: [getStatusInfo] returns one of the three options for every status
    value whatsoever, and for a known status the option it returns is the
    one carrying that value. *)
Theorem getStatusInfo_total statusValue :
  ∃ option,
    getStatusInfo statusValue = Ok option ∧
    option ∈ statusOptions ∧
    (known_status statusValue → Js.get option "value" = Ok statusValue).
Proof.
  rewrite getStatusInfo_cases. eexists. split; [reflexivity |]. split.
  - repeat case_match; unfold Js.at_index, statusOptions; cbn [lookup list_lookup default];
      set_solver.
  - intros [-> | [-> | ->]]; reflexivity.
Qed.

Lemma getStatusInfo_total_witness :
  ∃ option, getStatusInfo (VStr "DONE") = Ok option ∧
            Js.get option "label" = Ok (VStr "Done").
Proof.
  destruct (getStatusInfo_total (VStr "DONE")) as (option & Hinfo & _ & Hvalue).
  specialize (Hvalue (or_intror (or_intror eq_refl))).
  exists option. split; [exact Hinfo |].
  vm_compute in Hinfo. injection Hinfo as <-. reflexivity.
Defined.

Lemma TaskItem_record (m : gmap string value) :
  ∃ color label,
    TaskItem (VObj m)
    = Ok {| item_title := default VUndefined (m !! "title");
            item_description := default VUndefined (m !! "description");
            item_minutes := default VUndefined (m !! "total_minutes");
            badge_color := VStr color;
            badge_label := VStr label;
            select_value := default VUndefined (m !! "status");
            select_options := [(VStr "TO_DO", VStr "To Do");
                               (VStr "IN_PROGRESS", VStr "In Progress");
                               (VStr "DONE", VStr "Done")] |}.
Proof.
  unfold TaskItem. cbn [Js.get]. unfold mbind at 1. cbn [result_bind].
  rewrite getStatusInfo_cases. unfold mbind at 1. cbn [result_bind].
  repeat case_match; do 2 eexists; reflexivity.
Qed.

Lemma render_tasks_records (l : list value) :
  Forall (λ t, is_record t = true) l →
  ∃ items,
    Js.map_elems (λ task, key ← Js.get task "id";
                          item ← TaskItem task;
                          mret (key, item)) l = Ok items ∧
    items.*1 = (λ t, Js.get_opt t "id") <$> l ∧
    forallb valid_child (flat_map (λ ki, item_children ki.2) items)
    = forallb record_displayable l.
Proof.
  set (f := λ task, key ← Js.get task "id"; item ← TaskItem task; mret (key, item)).
  induction 1 as [| t l Ht _ (items & Hitems & Hkeys & Hvalid)].
  - by exists [].
  - destruct t as [| | | | | | m]; try discriminate.
    destruct (TaskItem_record m) as (color & label & Hitem).
    match type of Hitem with _ = Ok ?i =>
      exists ((Js.get_opt (VObj m) "id", i) :: items);
      assert (Hf : f (VObj m) = Ok (Js.get_opt (VObj m) "id", i))
    end.
    { unfold f. cbn [Js.get]. unfold mbind, result_bind. by rewrite Hitem. }
    cbn [Js.map_elems]. rewrite Hf, Hitems.
    split; [reflexivity |].
    split; [cbn [fmap list_fmap fst]; by rewrite Hkeys |].
    cbn [flat_map]. rewrite forallb_app, Hvalid.
    unfold record_displayable, Js.get_opt. cbn.
    by rewrite !andb_true_r, andb_assoc.
Qed.

Lemma panel_children_displayable st :
  forallb valid_child
    (panel_children
       (if Js.truthy (aiSuggestion st)
        then Some (Js.get_opt (aiSuggestion st) "plan",
                   Js.get_opt (aiSuggestion st) "estimated_hours")
        else None))
  = suggestion_displayable (aiSuggestion st).
Proof.
  unfold suggestion_displayable. destruct (Js.truthy (aiSuggestion st)); cbn;
    [by rewrite andb_true_r | reflexivity].
Qed.

Lemma display_logged_in st list :
  Js.truthy (user st) = true →
  render_tasks (tasks st) = Ok list →
  display st
  = if valid_child (Js.get_opt (user st) "username")
       && suggestion_displayable (aiSuggestion st)
       && forallb valid_child (list_children list)
    then Some (AppView (main_view st list))
    else None.
Proof.
  intros Huser Hlist. unfold display.
  rewrite (render_logged_in st Huser), Hlist.
  cbn [mbind result_bind mret result_ret view_children main_view
       header_username suggestion_panel tasks_view forallb].
  by rewrite forallb_app, panel_children_displayable, andb_assoc.
Qed.

Lemma display_main st v :
  display st = Some (AppView v) →
  Js.truthy (user st) = true ∧
  ∃ list,
    render_tasks (tasks st) = Ok list ∧ v = main_view st list ∧
    valid_child (Js.get_opt (user st) "username") = true ∧
    forallb valid_child (list_children list) = true.
Proof.
  intros Hdisplay.
  assert (Hrender : render st = Ok (AppView v)).
  { unfold display in Hdisplay. destruct (render st) as [v' |]; [| discriminate].
    destruct (forallb valid_child (view_children v')); [| discriminate].
    by injection Hdisplay as ->. }
  destruct (render_main _ _ Hrender) as (Huser & list & Hlist & ->).
  split; [exact Huser |]. exists list. split; [exact Hlist |].
  split; [reflexivity |].
  rewrite (display_logged_in st list Huser Hlist) in Hdisplay.
  destruct (valid_child (Js.get_opt (user st) "username")); [| discriminate].
  destruct (suggestion_displayable (aiSuggestion st)); [| discriminate].
  destruct (forallb valid_child (list_children list)); [| discriminate].
  by split.
Qed.

(** X20: with a user and a collection that is an array of records, the
    component functions return one item per record, in order and keyed by
    the record's id (the "no tasks" message for the empty array).  The
    screen shows that view exactly when React accepts every interpolated
    child: the user name, the plan and hours of a suggestion, and the
    title, description and minutes of each record; a plain object in one
    of these places leaves the screen blank. *)
Theorem display_collection_of_records st (l : list value) :
  Js.truthy (user st) = true →
  tasks st = VArr l →
  Forall (λ t, is_record t = true) l →
  ∃ v, render st = Ok (AppView v) ∧
       match tasks_view v with
       | NoTasks => l = []
       | TasksList items =>
           l ≠ [] ∧ items.*1 = (λ t, Js.get_opt t "id") <$> l
       end ∧
       display st = if state_displayable st l then Some (AppView v) else None.
Proof.
  intros Huser Htasks Hrec.
  destruct (render_tasks_records l Hrec) as (items & Hitems & Hkeys & Hvalid).
  assert (Hlist : render_tasks (tasks st)
                  = Ok (match l with [] => NoTasks | _ => TasksList items end)).
  { rewrite Htasks. unfold render_tasks.
    cbn [Js.get String.eqb Ascii.eqb Bool.eqb].
    unfold mbind at 1. cbn [result_bind Js.strict_eq].
    destruct l as [| t l]; [reflexivity |].
    rewrite bool_decide_eq_false_2 by (cbn [length]; lia).
    cbn [Js.elements]. unfold mbind at 1. cbn [result_bind].
    by rewrite Hitems. }
  eexists. split; [| split].
  - rewrite (render_logged_in st Huser), Hlist. reflexivity.
  - cbn [tasks_view main_view]. destruct l; [reflexivity | by split].
  - rewrite (display_logged_in st _ Huser Hlist). unfold state_displayable.
    destruct l as [| t l]; [reflexivity |].
    cbn [list_children]. by rewrite Hvalid.
Qed.

Lemma display_collection_of_records_witness :
  let user := obj [("username", VStr "ana")] in
  let good := {| tasks := VArr [obj [("id", VNum 4); ("title", VStr "write")];
                                obj [("title", VStr "no id")]];
                 showModal := false; editingTask := VNull; aiSuggestion := VNull;
                 loading := false; user := user |} in
  let bad := with_tasks (VArr [obj [("id", VNum 1);
                                    ("title", obj [("en", VStr "x")]);
                                    ("status", VStr "DONE")]]) good in
  (∃ v, display good = Some (AppView v) ∧
        match tasks_view v with
        | NoTasks => False
        | TasksList items => items.*1 = [VNum 4; VUndefined]
        end) ∧
  (∃ v, render bad = Ok (AppView v)) ∧ display bad = None.
Proof.
  intros user good bad. split; [| split].
  - destruct (display_collection_of_records good
                [obj [("id", VNum 4); ("title", VStr "write")];
                 obj [("title", VStr "no id")]])
      as (v & _ & Hlist & Hdisplay); [reflexivity | reflexivity | repeat constructor |].
    exists v. split; [exact Hdisplay |].
    destruct (tasks_view v) as [| items]; [discriminate Hlist | exact (proj2 Hlist)].
  - destruct (display_collection_of_records bad
                [obj [("id", VNum 1); ("title", obj [("en", VStr "x")]);
                      ("status", VStr "DONE")]])
      as (v & Hv & _); [reflexivity | reflexivity | repeat constructor |].
    by exists v.
  - destruct (display_collection_of_records bad
                [obj [("id", VNum 1); ("title", obj [("en", VStr "x")]);
                      ("status", VStr "DONE")]])
      as (v & _ & _ & Hdisplay); [reflexivity | reflexivity | repeat constructor |].
    exact Hdisplay.
Defined.

(** X21: a list response that is an object with a falsy [results] (and no
    [length] of zero) is stored as the collection, and the next render of a
    logged-in user then fails: the object has no [map]. *)
Theorem refresh_with_wrapper_breaks_render E w (m : gmap string value) results :
  respond E (trace w) list_request = Resolved (VObj m) →
  m !! "results" = Some results →
  Js.truthy results = false →
  m !! "length" ≠ Some (VNum 0) →
  Js.truthy (user (app w)) = true →
  render (app (run fetchTasks E w)) = Throw TypeError.
Proof.
  intros Hresp Hm Hfalsy Hlen Huser.
  assert (Hget : Js.get (VObj m) "results" = Ok results) by (simpl; by rewrite Hm).
  unfold run. rewrite (fetchTasks_resolved E w (VObj m) results Hresp Hget).
  rewrite render_logged_in by exact Huser.
  cbn [snd app with_app tasks]. unfold Js.or. rewrite Hfalsy.
  unfold render_tasks. cbn [Js.get]. unfold mbind at 2. cbn [result_bind].
  assert (Hne : Js.strict_eq (default VUndefined (m !! "length")) (VNum 0) = false).
  { destruct (m !! "length") as [[| | | n | | |] |]; try reflexivity.
    simpl. apply bool_decide_eq_false. congruence. }
  by rewrite Hne.
Qed.

Lemma refresh_with_wrapper_breaks_render_witness :
  let st := {| tasks := VArr []; showModal := false; editingTask := VNull;
               aiSuggestion := VNull; loading := false;
               user := obj [("username", VStr "ana")] |} in
  render st = Ok (AppView (main_view st NoTasks)) ∧
  render (app (run fetchTasks
                   (constant_env (Resolved (obj [("results", VNull)])) true)
                   (empty_world st))) = Throw TypeError.
Proof.
  intros st. split; [reflexivity |].
  refine (refresh_with_wrapper_breaks_render _ (empty_world st) _ VNull _ _ _ _ _);
    try reflexivity.
  vm_compute. discriminate.
Defined.

(** X22: dismissing the suggestion removes the panel from a screen that
    was rendering and changes nothing else of it. *)
Theorem dismiss_hides_panel E w v :
  render (app w) = Ok (AppView v) →
  render (app (run dismiss E w))
  = Ok (AppView {| header_username := header_username v;
                   plan_button_disabled := plan_button_disabled v;
                   plan_button_label := plan_button_label v;
                   suggestion_panel := None;
                   tasks_view := tasks_view v;
                   modal_task := modal_task v |}).
Proof.
  intros Hrender. destruct (render_main _ _ Hrender) as (Huser & list & Hlist & ->).
  rewrite render_logged_in by exact Huser.
  cbn [run dismiss setAiSuggestion set_state snd app with_app tasks].
  by rewrite Hlist.
Qed.

Lemma dismiss_hides_panel_witness :
  let st := {| tasks := VArr []; showModal := false; editingTask := VNull;
               aiSuggestion := obj [("plan", VStr "p"); ("estimated_hours", VNum 2)];
               loading := false; user := obj [("username", VStr "ana")] |} in
  suggestion_panel (main_view st NoTasks) = Some (VStr "p", VNum 2) ∧
  render (app (run dismiss (constant_env (Resolved VNull) true) (empty_world st)))
  = Ok (AppView (main_view (with_suggestion VNull st) NoTasks)).
Proof.
  intros st. split; [reflexivity |].
  exact (dismiss_hides_panel (constant_env (Resolved VNull) true) (empty_world st)
           (main_view st NoTasks) eq_refl).
Defined.

Lemma handleAiSuggestion_run E w :
  app (run handleAiSuggestion E w)
  = {| tasks := tasks (app w); showModal := showModal (app w);
       editingTask := editingTask (app w);
       aiSuggestion := match respond E (trace w) plan_request with
                       | Resolved d => d
                       | Rejected _ => fallback_suggestion
                       end;
       loading := false; user := user (app w) |}.
Proof.
  unfold run, handleAiSuggestion, try_finally, try_catch.
  unfold mbind. unfold prog_bind, await_axios, setLoading, setAiSuggestion,
    console_error, set_state.
  cbn [trace with_app]. fold plan_request.
  by destruct (respond E (trace w) plan_request).
Qed.

(** X23: after a plan request has settled, a screen that was displayed
    shows the button enabled again and the panel according to the outcome:
    the fallback text with 0 hours when the request was rejected; no panel
    when it resolved with a falsy body; the [plan] and [estimated_hours] of
    a truthy body ([undefined] for a field the body lacks) when React
    accepts both as children, and a blank screen when one of them is a
    plain object. *)
Theorem plan_request_then_display E w v :
  display (app w) = Some (AppView v) →
  display (app (run handleAiSuggestion E w))
  = match respond E (trace w) plan_request with
    | Rejected _ =>
        Some (AppView
                (with_panel
                   (Some (VStr "Could not generate plan. Please try again later.",
                          VNum 0)) v))
    | Resolved d =>
        if Js.truthy d
        then if valid_child (Js.get_opt d "plan")
                && valid_child (Js.get_opt d "estimated_hours")
             then Some (AppView
                          (with_panel (Some (Js.get_opt d "plan",
                                             Js.get_opt d "estimated_hours")) v))
             else None
        else Some (AppView (with_panel None v))
    end.
Proof.
  intros Hdisplay.
  destruct (display_main _ _ Hdisplay) as (Huser & list & Hlist & -> & Hname & Hitems).
  rewrite handleAiSuggestion_run.
  rewrite (display_logged_in _ list) by assumption.
  cbn [user aiSuggestion]. rewrite Hname, Hitems, andb_true_r. cbn [andb].
  unfold suggestion_displayable, main_view, with_panel.
  cbn [loading user showModal editingTask aiSuggestion header_username
       tasks_view modal_task].
  destruct (respond E (trace w) plan_request) as [d | e]; [| reflexivity].
  destruct (Js.truthy d); reflexivity.
Qed.

Lemma plan_request_then_display_witness :
  let st := {| tasks := VArr []; showModal := false; editingTask := VNull;
               aiSuggestion := VNull; loading := false;
               user := obj [("username", VStr "ana")] |} in
  let plan_is_object :=
    obj [("plan", obj [("steps", VNum 1)]); ("estimated_hours", VNum 2)] in
  display st = Some (AppView (main_view st NoTasks)) ∧
  display (app (run handleAiSuggestion
                    (constant_env (Resolved plan_is_object) true) (empty_world st)))
  = None ∧
  display (app (run handleAiSuggestion
                    (constant_env (Resolved (VStr "")) true) (empty_world st)))
  = Some (AppView (main_view st NoTasks)).
Proof.
  intros st plan_is_object. split; [reflexivity |]. split.
  - exact (plan_request_then_display
             (constant_env (Resolved plan_is_object) true) (empty_world st)
             (main_view st NoTasks) eq_refl).
  - exact (plan_request_then_display
             (constant_env (Resolved (VStr "")) true) (empty_world st)
             (main_view st NoTasks) eq_refl).
Defined.

(** X24: a logout followed by a login attempt, however it ends, leaves the
    suggestion, the modal flag and the edited task of the previous session
    in place: neither handler resets them. *)
Theorem session_change_keeps_panel_and_modal ToString E w credentials :
  let w' := run (handleLogin ToString credentials) E (run handleLogout E w) in
  aiSuggestion (app w') = aiSuggestion (app w) ∧
  showModal (app w') = showModal (app w) ∧
  editingTask (app w') = editingTask (app w) ∧
  loading (app w') = loading (app w).
Proof.
  assert (Hin : keeps (λ w, (aiSuggestion (app w), showModal (app w),
                             editingTask (app w), loading (app w)))
                      (handleLogin ToString credentials)).
  { unfold handleLogin, fetchUserProfile, fetchTasks. keeps_structure. }
  assert (Hout : keeps (λ w, (aiSuggestion (app w), showModal (app w),
                              editingTask (app w), loading (app w)))
                       handleLogout).
  { unfold handleLogout. keeps_structure. }
  cbn zeta. unfold run.
  pose proof (eq_trans (Hin E (handleLogout E w).2) (Hout E w)) as H.
  cbv beta in H. by inversion H.
Qed.

(** ** The form, opened and closed *)

Lemma render_with_modal st list b task :
  Js.truthy (user st) = true →
  render_tasks (tasks st) = Ok list →
  render (with_modal b task st) = Ok (AppView (main_view (with_modal b task st) list)).
Proof.
  intros Huser Hlist. rewrite render_logged_in by exact Huser.
  cbn [with_modal tasks]. by rewrite Hlist.
Qed.

(** X25: cancelling the form unmounts it and sends nothing: the buffer is
    gone, the log and the collection are as before; and the form opened
    next with "+ New Task" starts from the empty defaults, whatever had
    been typed or whichever task had been edited. *)
Theorem cancel_discards_buffer E s v :
  render (app (scr_world s)) = Ok (AppView v) →
  let s1 := dispatch (λ _, onClose) E s in
  scr_modal s1 = None ∧
  app (scr_world s1) = with_modal false VNull (app (scr_world s)) ∧
  trace (scr_world s1) = trace (scr_world s) ∧
  local_storage (scr_world s1) = local_storage (scr_world s) ∧
  scr_modal (dispatch (λ _, onNewTask) E s1) = Some (TaskModal_init VNull).
Proof.
  intros Hrender. destruct (render_main _ _ Hrender) as (Huser & list & Hlist & _).
  cbn zeta.
  assert (Hs1 : dispatch (λ _, onClose) E s
                = {| scr_world := with_app (with_modal false VNull) (scr_world s);
                     scr_modal := None |}).
  { unfold dispatch.
    change (run onClose E (scr_world s))
      with (with_app (with_modal false VNull) (scr_world s)).
    f_equal. by apply commit_modal_closed. }
  rewrite Hs1. repeat (split; [reflexivity |]).
  unfold dispatch. cbn [scr_world scr_modal].
  change (run onNewTask E _)
    with (with_app (with_modal true VNull) (scr_world s)).
  unfold commit_modal. cbn [app with_app].
  by rewrite (render_with_modal _ list true VNull Huser Hlist).
Qed.

Lemma cancel_discards_buffer_witness :
  let st := {| tasks := VArr []; showModal := true;
               editingTask := obj [("id", VNum 1); ("title", VStr "old")];
               aiSuggestion := VNull; loading := false;
               user := obj [("username", VStr "ana")] |} in
  let s := {| scr_world := empty_world st;
              scr_modal := Some {| title := VStr "typed"; description := VStr "";
                                   status := VStr "DONE"; totalMinutes := VStr "15" |} |} in
  let E := constant_env (Resolved VNull) true in
  scr_modal (dispatch (λ _, onClose) E s) = None ∧
  scr_modal (dispatch (λ _, onNewTask) E (dispatch (λ _, onClose) E s))
  = Some {| title := VStr ""; description := VStr ""; status := VStr "TO_DO";
            totalMinutes := VNum 0 |}.
Proof.
  intros st s E.
  destruct (cancel_discards_buffer E s (main_view st NoTasks) eq_refl)
    as (H1 & _ & _ & _ & H2).
  split; [exact H1 | exact H2].
Defined.

(** X26: the edit flow end to end.  Opening the form on a task (one with a
    title, so that the form can be submitted) from a screen with no form
    mounts a buffer filled from the task, and submitting it untouched
    sends, first of all, a PUT to that task's id whose body repeats the
    task's title and carries no [id] field. *)
Theorem edit_then_submit_puts_task parseInt E s v (m : gmap string value) :
  render (app (scr_world s)) = Ok (AppView v) →
  scr_modal s = None →
  Js.truthy (default VUndefined (m !! "title")) = true →
  let s1 := dispatch (λ _, onEdit (VObj m)) E s in
  let sent := Request PUT [Lit "/tasks/tasks/";
                           Interp (default VUndefined (m !! "id")); Lit "/"]
                      (draft parseInt (TaskModal_init (VObj m))) in
  scr_modal s1 = Some (TaskModal_init (VObj m)) ∧
  (∃ rest, trace (scr_world (submit parseInt E s1))
           = (trace (scr_world s) ++ EHttp sent :: rest)%list) ∧
  Js.get (req_body sent) "title" = Ok (default VUndefined (m !! "title")) ∧
  Js.get (req_body sent) "id" = Ok VUndefined.
Proof.
  intros Hrender Hnone Htitle.
  destruct (render_main _ _ Hrender) as (Huser & list & Hlist & _).
  cbn zeta.
  assert (Hs1 : dispatch (λ _, onEdit (VObj m)) E s
                = {| scr_world := with_app (with_modal true (VObj m)) (scr_world s);
                     scr_modal := Some (TaskModal_init (VObj m)) |}).
  { unfold dispatch. rewrite Hnone.
    cbn [run onEdit setShowModal setEditingTask set_state mbind prog_bind snd].
    unfold commit_modal.
    change (app _) with (with_modal true (VObj m) (app (scr_world s))).
    rewrite (render_with_modal _ list true (VObj m) Huser Hlist). reflexivity. }
  rewrite Hs1. split; [reflexivity |]. split.
  - unfold submit, dispatch, handleSubmit. cbn [scr_modal scr_world].
    rewrite run_detached.
    set (w1 := with_app (with_modal true (VObj m)) (scr_world s)).
    set (d := draft parseInt (TaskModal_init (VObj m))).
    assert (Hreq : save_request (app w1) d
                   = Request PUT [Lit "/tasks/tasks/";
                                  Interp (default VUndefined (m !! "id")); Lit "/"] d)
      by reflexivity.
    destruct (respond E (trace w1) (save_request (app w1) d)) as [x | e] eqn:Hresp.
    + rewrite (handleSaveTask_resolved E w1 (app w1) d x Hresp).
      match goal with |- context [run fetchTasks E ?w2] =>
        destruct (fetchTasks_no_delete E w2) as (new & Hnew & _)
      end.
      unfold run. rewrite Hnew, Hreq. cbn [trace log with_app w1].
      rewrite <- app_assoc. by exists new.
    + rewrite (handleSaveTask_rejected E w1 (app w1) d e Hresp), Hreq.
      cbn [trace log with_app w1]. rewrite <- app_assoc. by eexists.
  - cbn [req_body]. unfold draft, obj, TaskModal_init, Js.get_opt.
    cbn [Js.get list_to_map foldr title description status totalMinutes
         uncurry fst snd].
    split.
    + rewrite lookup_insert_eq. cbn [default]. unfold Js.or. by rewrite Htitle.
    + rewrite !lookup_insert_ne by done. by rewrite lookup_empty.
Qed.

Lemma edit_then_submit_puts_task_witness :
  let st := {| tasks := VArr [obj [("id", VNum 3); ("title", VStr "write")]];
               showModal := false; editingTask := VNull; aiSuggestion := VNull;
               loading := false; user := obj [("username", VStr "ana")] |} in
  let s := {| scr_world := empty_world st; scr_modal := None |} in
  let E := constant_env (Rejected VNull) true in
  ∃ rest,
    trace (scr_world (submit (λ v, v) E
                        (dispatch (λ _, onEdit (obj [("id", VNum 3);
                                                     ("title", VStr "write")])) E s)))
    = EHttp (Request PUT [Lit "/tasks/tasks/"; Interp (VNum 3); Lit "/"]
                     (obj [("title", VStr "write"); ("description", VStr "");
                           ("status", VStr "TO_DO"); ("total_minutes", VNum 0)]))
      :: rest.
Proof.
  intros st s E.
  destruct (edit_then_submit_puts_task (λ v, v) E s
              (main_view st (TasksList
                 [(VNum 3, {| item_title := VStr "write";
                              item_description := VUndefined;
                              item_minutes := VUndefined;
                              badge_color := VStr "#ffbe0b";
                              badge_label := VStr "To Do";
                              select_value := VUndefined;
                              select_options :=
                                [(VStr "TO_DO", VStr "To Do");
                                 (VStr "IN_PROGRESS", VStr "In Progress");
                                 (VStr "DONE", VStr "Done")] |})]))
              (list_to_map [("id", VNum 3); ("title", VStr "write")]))
    as (_ & (rest & Hrest) & _); [reflexivity | reflexivity | reflexivity |].
  exists rest. exact Hrest.
Defined.

